(** * evernote-markdown: the ENEX to Markdown converter of [convert.py]

    A shallow embedding of [convert.py] and the properties of its three
    parts: the archive reader [iterate_emex], the resource registration of
    [process_emex] and the content transformer [ContentParser].

    Library functions the program calls are modelled here from their
    definitions: [hashlib.md5] (RFC 1321), [base64.b64decode] (CPython's
    [binascii.a2b_base64] without strict mode), [dict], [pathlib].  The
    collaborators whose behaviour the program does not fix ([magic],
    [slugify], the generic [html2text] converter) are interfaces. *)

From Stdlib Require Import ZArith Ascii String List Lia.
From Stdlib.Strings Require Import Byte.
From stdpp Require Import base option list gmap strings pretty.

Local Open Scope Z_scope.
Local Open Scope string_scope.

(** ** Python values and exceptions *)

(** [bytes] objects. *)
Abbreviation bytes := (list byte).

(** A value that is either [None] or a [str]: element texts and the values
    of HTML attributes. *)
Inductive pyval : Type :=
| PyNone : pyval
| PyStr : string -> pyval.

#[global] Instance pyval_eq_dec : EqDecision pyval.
Proof. solve_decision. Defined.

(** [str(v)], as an f-string or a [%s] renders the value. *)
Definition py_str (v : pyval) : string :=
  match v with
  | PyNone => "None"
  | PyStr s => s
  end.

(** Truthiness: [None] and the empty string are false. *)
Definition truthy (v : pyval) : bool :=
  match v with
  | PyNone => false
  | PyStr s => negb (String.eqb s "")
  end.

(** [v or ''] for an element text. *)
Definition or_empty (v : pyval) : string :=
  if truthy v then py_str v else "".

(** The exceptions the program can raise. *)
Inductive exn : Type :=
| KeyError (key : pyval)
| UnboundLocalError (name : string)
| ValueError (msg : string)
| BinasciiError (msg : string)
| ParseError
| OSError (filename : string)
| LibraryError (msg : string).

Inductive result (A : Type) : Type :=
| Ok (a : A)
| Raise (e : exn).
Arguments Ok {A} a.
Arguments Raise {A} e.

Definition is_ok {A} (r : result A) : bool :=
  match r with Ok _ => true | Raise _ => false end.

(** ** [hashlib.md5] *)

Module MD5.

Definition mask32 : Z := 4294967295.

Definition w32 (x : Z) : Z := Z.land x mask32.

Definition rotl32 (x c : Z) : Z :=
  w32 (Z.lor (Z.shiftl x c) (Z.shiftr x (32 - c))).

Definition not32 (x : Z) : Z := Z.lxor x mask32.

Definition shifts : list Z :=
  [7; 12; 17; 22; 7; 12; 17; 22; 7; 12; 17; 22; 7; 12; 17; 22;
   5; 9; 14; 20; 5; 9; 14; 20; 5; 9; 14; 20; 5; 9; 14; 20;
   4; 11; 16; 23; 4; 11; 16; 23; 4; 11; 16; 23; 4; 11; 16; 23;
   6; 10; 15; 21; 6; 10; 15; 21; 6; 10; 15; 21; 6; 10; 15; 21]%Z.

Definition sines : list Z :=
  [0xd76aa478; 0xe8c7b756; 0x242070db; 0xc1bdceee;
   0xf57c0faf; 0x4787c62a; 0xa8304613; 0xfd469501;
   0x698098d8; 0x8b44f7af; 0xffff5bb1; 0x895cd7be;
   0x6b901122; 0xfd987193; 0xa679438e; 0x49b40821;
   0xf61e2562; 0xc040b340; 0x265e5a51; 0xe9b6c7aa;
   0xd62f105d; 0x02441453; 0xd8a1e681; 0xe7d3fbc8;
   0x21e1cde6; 0xc33707d6; 0xf4d50d87; 0x455a14ed;
   0xa9e3e905; 0xfcefa3f8; 0x676f02d9; 0x8d2a4c8a;
   0xfffa3942; 0x8771f681; 0x6d9d6122; 0xfde5380c;
   0xa4beea44; 0x4bdecfa9; 0xf6bb4b60; 0xbebfbc70;
   0x289b7ec6; 0xeaa127fa; 0xd4ef3085; 0x04881d05;
   0xd9d4d039; 0xe6db99e5; 0x1fa27cf8; 0xc4ac5665;
   0xf4292244; 0x432aff97; 0xab9423a7; 0xfc93a039;
   0x655b59c3; 0x8f0ccc92; 0xffeff47d; 0x85845dd1;
   0x6fa87e4f; 0xfe2ce6e0; 0xa3014314; 0x4e0811a1;
   0xf7537e82; 0xbd3af235; 0x2ad7d2bb; 0xeb86d391]%Z.

Definition byte_val (b : byte) : Z := Z.of_N (Byte.to_N b).

(** Little-endian bytes of [x], [n] of them. *)
Fixpoint le_bytes (n : nat) (x : Z) : list Z :=
  match n with
  | O => []
  | S n' => Z.land x 255 :: le_bytes n' (Z.shiftr x 8)
  end.

Fixpoint le_word (bs : list Z) : Z :=
  match bs with
  | [] => 0
  | b :: bs' => Z.lor b (Z.shiftl (le_word bs') 8)
  end.

(** The padded message: a 1 bit, zeros up to 56 modulo 64, then the
    length in bits on 64 bits. *)
Definition pad (msg : list Z) : list Z :=
  let len := Z.of_nat (List.length msg) in
  let zeros := Z.to_nat ((55 - len) mod 64) in
  msg ++ 128 :: List.repeat 0 zeros ++ le_bytes 8 (Z.land (len * 8) 18446744073709551615).

Fixpoint words (n : nat) (bs : list Z) : list Z :=
  match n with
  | O => []
  | S n' => le_word (firstn 4 bs) :: words n' (skipn 4 bs)
  end.

Record regs : Type := Regs { ra : Z; rb : Z; rc : Z; rd : Z }.

Definition round (m : list Z) (r : regs) (i : Z) : regs :=
  let '(Regs a b c d) := r in
  let '(f, g) :=
    if (i <? 16)%Z then (Z.lor (Z.land b c) (Z.land (not32 b) d), i)
    else if (i <? 32)%Z then (Z.lor (Z.land d b) (Z.land (not32 d) c), (5 * i + 1) mod 16)
    else if (i <? 48)%Z then (Z.lxor (Z.lxor b c) d, (3 * i + 5) mod 16)
    else (Z.lxor c (Z.lor b (not32 d)), (7 * i) mod 16) in
  let k := nth (Z.to_nat i) sines 0 in
  let s := nth (Z.to_nat i) shifts 0 in
  let f' := w32 (f + a + k + nth (Z.to_nat g) m 0) in
  Regs d (w32 (b + rotl32 f' s)) b c.

Definition block (r : regs) (chunk : list Z) : regs :=
  let m := words 16 chunk in
  let r' := fold_left (round m) (List.map Z.of_nat (seq 0 64)) r in
  Regs (w32 (ra r + ra r')) (w32 (rb r + rb r')) (w32 (rc r + rc r')) (w32 (rd r + rd r')).

Fixpoint blocks (n : nat) (r : regs) (bs : list Z) : regs :=
  match n with
  | O => r
  | S n' => blocks n' (block r (firstn 64 bs)) (skipn 64 bs)
  end.

Definition digest (data : bytes) : list Z :=
  let p := pad (List.map byte_val data) in
  let r := blocks (Nat.div (List.length p) 64)
                  (Regs 0x67452301 0xefcdab89 0x98badcfe 0x10325476) p in
  le_bytes 4 (ra r) ++ le_bytes 4 (rb r) ++ le_bytes 4 (rc r) ++ le_bytes 4 (rd r).

Definition hex_digit (x : Z) : ascii :=
  if (x <? 10)%Z then ascii_of_N (Z.to_N (48 + x)) else ascii_of_N (Z.to_N (87 + x)).

Fixpoint hex (bs : list Z) : string :=
  match bs with
  | [] => ""
  | b :: bs' => String (hex_digit (Z.shiftr b 4)) (String (hex_digit (Z.land b 15)) (hex bs'))
  end.

(** [md5(data).hexdigest()] *)
Definition hexdigest (data : bytes) : string := hex (digest data).

End MD5.

(** ** [base64.b64decode]

    [b64decode(s)] with its default arguments encodes a [str] argument to
    ASCII ([ValueError] otherwise) and calls [binascii.a2b_base64], whose
    loop (CPython 3.7 and later, strict mode off) is [a2b_loop]:
    characters outside the alphabet are skipped, [=] ends the input once
    it completes a group, and a group left open at the end is an error. *)

Module Base64.

Definition code (c : ascii) : Z := Z.of_N (N_of_ascii c).

(** [table_a2b_base64]; [None] for the entries that are not digits. *)
Definition sextet (c : ascii) : option Z :=
  let n := code c in
  if ((65 <=? n) && (n <=? 90))%Z then Some (n - 65)
  else if ((97 <=? n) && (n <=? 122))%Z then Some (n - 71)
  else if ((48 <=? n) && (n <=? 57))%Z then Some (n + 4)
  else if (n =? 43)%Z then Some 62
  else if (n =? 47)%Z then Some 63
  else None.

Definition is_pad (c : ascii) : bool := (code c =? 61)%Z.

Definition to_byte (x : Z) : byte :=
  match Byte.of_N (Z.to_N (Z.land x 255)) with
  | Some b => b
  | None => x00
  end.

Definition length_error (nbytes : nat) : exn :=
  BinasciiError
    ("Invalid base64-encoded string: number of data characters ("
     +:+ pretty (Nat.div nbytes 3 * 4 + 1)%nat
     +:+ ") cannot be 1 more than a multiple of 4").

(** The decoding loop; [out] holds the bytes written so far, last
    first. *)
Fixpoint a2b_loop (s : list ascii) (quad_pos : nat) (leftchar : Z)
         (pads : nat) (out : list byte) : result bytes :=
  match s with
  | [] =>
      match quad_pos with
      | O => Ok (rev out)
      | 1%nat => Raise (length_error (List.length out))
      | _ => Raise (BinasciiError "Incorrect padding")
      end
  | c :: s' =>
      if is_pad c then
        if (2 <=? quad_pos)%nat then
          if (4 <=? quad_pos + S pads)%nat then Ok (rev out)
          else a2b_loop s' quad_pos leftchar (S pads) out
        else a2b_loop s' quad_pos leftchar pads out
      else
        match sextet c with
        | None => a2b_loop s' quad_pos leftchar pads out
        | Some v =>
            match quad_pos with
            | O => a2b_loop s' 1 v 0 out
            | 1%nat =>
                a2b_loop s' 2 (Z.land v 15) 0
                  (to_byte (Z.lor (Z.shiftl leftchar 2) (Z.shiftr v 4)) :: out)
            | 2%nat =>
                a2b_loop s' 3 (Z.land v 3) 0
                  (to_byte (Z.lor (Z.shiftl leftchar 4) (Z.shiftr v 2)) :: out)
            | _ =>
                a2b_loop s' 0 0 0
                  (to_byte (Z.lor (Z.shiftl leftchar 6) v) :: out)
            end
        end
  end.

Definition a2b_base64 (s : list ascii) : result bytes := a2b_loop s 0 0 0 [].

Definition is_ascii (c : ascii) : bool := (code c <? 128)%Z.

(** The number of characters of the alphabet in a text. *)
Definition digits (s : list ascii) : nat :=
  List.length (filter (fun c => bool_decide (is_Some (sextet c))) s).

(** [base64.b64decode(s)] for a [str] *)
Definition b64decode (s : string) : result bytes :=
  let cs := list_ascii_of_string s in
  if forallb is_ascii cs then a2b_base64 cs
  else Raise (ValueError "string argument should contain only ASCII characters").

End Base64.

(** ** Computations with state that may raise

    A Python statement sequence over a mutable state: an exception stops the
    sequence, and what was mutated before it stays mutated. *)

Definition M (S A : Type) : Type := S -> result A * S.

Definition ret {S A} (a : A) : M S A := fun s => (Ok a, s).

Definition raise {S A} (e : exn) : M S A := fun s => (Raise e, s).

Definition bind {S A B} (m : M S A) (k : A -> M S B) : M S B :=
  fun s =>
    match m s with
    | (Ok a, s') => k a s'
    | (Raise e, s') => (Raise e, s')
    end.

Definition lift {S A} (r : result A) : M S A := fun s => (r, s).

Definition modify {S} (f : S -> S) : M S unit := fun s => (Ok tt, f s).

Definition gets {S A} (f : S -> A) : M S A := fun s => (Ok (f s), s).

Declare Scope py_scope.
Delimit Scope py_scope with py.
Notation "x <- m ;; k" := (bind m (fun x => k))
  (at level 100, m at next level, right associativity) : py_scope.
Notation "m ;; k" := (bind m (fun _ => k))
  (at level 100, right associativity) : py_scope.
Local Open Scope py_scope.

(** ** Dictionaries, paths, files, logging *)

(** [dict(pairs)]: a later pair overrides an earlier one with its key. *)
Definition dict {V} (pairs : list (string * V)) : gmap string V :=
  fold_left (fun m kv => <[kv.1 := kv.2]> m) pairs ∅.

Definition update_all {V} (pairs : list (string * V)) (m : gmap string V)
  : gmap string V :=
  fold_left (fun m kv => <[kv.1 := kv.2]> m) pairs m.

(** [d[key]] *)
Definition getitem {V} (d : gmap string V) (key : string) : result V :=
  match d !! key with
  | Some v => Ok v
  | None => Raise (KeyError (PyStr key))
  end.

(** [d.get(key, dflt)] *)
Definition get {V} (d : gmap string V) (key : string) (dflt : V) : V :=
  default dflt (d !! key).

(** The MIME type to file extension mapping. *)
Definition EXTENSIONS : gmap string string :=
  dict [ ("application/x-empty", "txt");
         ("image/gif", "gif");
         ("image/jpeg", "jpeg");
         ("image/png", "png");
         ("image/svg", "svg");
         ("image/svg+xml", "svg");
         ("image/x-ms-bmp", "bmp");
         ("application/pdf", "pdf") ].

(** [os.extsep] *)
Definition extsep : string := ".".

(** A [Path], as its components. *)
Abbreviation path := (list string).

(** [p / name] for a [name] of one component *)
Definition path_div (p : path) (name : string) : path := p ++ [name].

(** [str(p)] *)
Fixpoint path_str (p : path) : string :=
  match p with
  | [] => "."
  | [c] => c
  | c :: p' => c +:+ "/" +:+ path_str p'
  end.

Inductive node : Type :=
| Dir
| File (contents : bytes).

Inductive level : Type := INFO | ERROR.

Abbreviation log_record := (level * string)%type.

(** ** The collaborators *)

(** [magic.from_buffer(data, mime=True)] and [slugify.slugify]. *)
Class Collaborators : Type := {
  from_buffer : bytes -> string;
  slugify : pyval -> result string
}.

(** What [HTMLParser.feed] and [close] call back on the parser object.
    [ParserError] is the call of [error], which [html.parser] makes before
    Python 3.10 only; later versions have no such call, and their
    callback lists have no [ParserError]. *)
Inductive callback (X : Type) : Type :=
| StartTag (tag : string) (attrs : list (string * pyval))
| EndTag (tag : string)
| ParserError (message : string)
| Other (x : X).
Arguments StartTag {X} tag attrs.
Arguments EndTag {X} tag.
Arguments ParserError {X} message.
Arguments Other {X} x.

(** The generic converter [html2text.HTML2Text]: its state [conv], the
    callbacks [HTMLParser] makes for a content, the output method [o], the
    handlers [ContentParser] does not override or delegates to, and what
    [handle] returns at the end. *)
Class HTML2Text : Type := {
  conv : Type;
  other : Type;
  conv_init : conv;
  HTMLParser_feed : pyval -> list (callback other);
  o : string -> conv -> conv;
  super_handle_starttag : string -> list (string * pyval) -> conv -> result conv;
  super_handle_endtag : string -> conv -> result conv;
  handle_other : other -> conv -> result conv;
  finish : conv -> result string
}.

(** ** [ContentParser] *)

Section ContentParser.

Context `{HTML2Text}.

(** The parser object: the inherited state and what it has logged. *)
Record parser : Type := Parser {
  generic : conv;
  plog : list log_record
}.

Definition logging_error (msg : string) : M parser unit :=
  modify (fun p => Parser (generic p) (plog p ++ [(ERROR, msg)])).

(** [self.o(text)] *)
Definition self_o (text : string) : M parser unit :=
  modify (fun p => Parser (o text (generic p)) (plog p)).

Definition super (f : conv -> result conv) : M parser unit :=
  fun p =>
    match f (generic p) with
    | Ok c => (Ok tt, Parser c (plog p))
    | Raise e => (Raise e, p)
    end.

(** [self.media_paths[key]]: the keys of the mapping are strings. *)
Definition media_paths_getitem (media_paths : gmap string path) (key : pyval)
  : result path :=
  match key with
  | PyStr h =>
      match media_paths !! h with
      | Some p => Ok p
      | None => Raise (KeyError key)
      end
  | PyNone => Raise (KeyError key)
  end.

Definition handle_starttag (media_paths : gmap string path)
           (tag : string) (attrs : list (string * pyval)) : M parser unit :=
  let attrs_dict := dict attrs in
  if String.eqb tag "en-note" then ret tt
  else if String.eqb tag "en-media" then
    let title := get attrs_dict "title" (PyStr "") in
    hash <- lift (getitem attrs_dict "hash") ;;
    p <- lift (media_paths_getitem media_paths hash) ;;
    self_o ("![" +:+ py_str title +:+ "](" +:+ path_str p +:+ ")")
  else if String.eqb tag "en-crypt" then
    logging_error "<en-crypt> is not implemented."
  else if String.eqb tag "en-todo" then
    self_o (if truthy (get attrs_dict "checked" PyNone) then "[x]" else "[ ]")
  else super (super_handle_starttag tag attrs).

Definition handle_endtag (tag : string) : M parser unit :=
  if existsb (String.eqb tag) ["en-note"; "en-media"; "en-crypt"; "en-todo"]
  then ret tt
  else super (super_handle_endtag tag).

Definition error (message : string) : M parser unit :=
  logging_error ("HTML parsing error: " +:+ message).

Definition callback_handle (media_paths : gmap string path)
           (cb : callback other) : M parser unit :=
  match cb with
  | StartTag tag attrs => handle_starttag media_paths tag attrs
  | EndTag tag => handle_endtag tag
  | ParserError message => error message
  | Other x => super (handle_other x)
  end.

(** The callbacks of one content, in order. *)
Fixpoint feed (media_paths : gmap string path) (cbs : list (callback other))
  : M parser unit :=
  match cbs with
  | [] => ret tt
  | cb :: cbs' => callback_handle media_paths cb ;; feed media_paths cbs'
  end.

(** [ContentParser(media_paths).handle(content)]: the Markdown text, or
    the exception, and the records logged on the way. *)
Definition handle (media_paths : gmap string path) (content : pyval)
  : result string * list log_record :=
  match feed media_paths (HTMLParser_feed content) (Parser conv_init []) with
  | (Ok _, p) => (finish (generic p), plog p)
  | (Raise e, p) => (Raise e, plog p)
  end.

End ContentParser.

(** ** [process_emex] and [iterate_emex] *)

Record Note : Type := mkNote { note_title : pyval; note_content : string }.

Record Resource : Type := mkResource { resource_data : bytes }.

(** What [ElementTree.iterparse] delivers: the elements in the order in
    which they end, with their tag and text; [Malformed] is the place
    where the document stops being well formed. *)
Inductive parse_event : Type :=
| End (tag : string) (text : pyval)
| Malformed.

(** The local variables of [iterate_emex]; [None] is "not yet assigned". *)
Record locals : Type := Locals {
  title : option pyval;
  content : option pyval;
  data : option bytes
}.

Definition no_locals : locals := Locals None None None.

(** The state [process_emex] works on: its dictionary [media_paths], the
    files below the output directory, the log, and the calls of
    [write_text] and [write_bytes] that have written so far, oldest
    first. *)
Record world : Type := World {
  media_paths : gmap string path;
  fs : gmap path node;
  log : list log_record;
  written : list (path * bytes)
}.

Definition logging (lv : level) (msg : string) : M world unit :=
  modify (fun w => World (media_paths w) (fs w) (log w ++ [(lv, msg)]) (written w)).

Definition logging_records (records : list log_record) : M world unit :=
  modify (fun w => World (media_paths w) (fs w) (log w ++ records) (written w)).

(** [p.exists()] *)
Definition path_exists (p : path) : M world bool :=
  gets (fun w => bool_decide (is_Some (fs w !! p))).

(** [p.is_dir()] on what is found at a path. *)
Definition is_dir (n : option node) : bool :=
  match n with
  | Some Dir => true
  | _ => false
  end.

(** [p.write_bytes(b)], and [p.write_text(s, encoding='utf-8')] with the
    encoded text: the file is created or replaced, and a directory at [p]
    makes the call raise ([IsADirectoryError], an [OSError]) and write
    nothing.  The parents of [p] are the directories that [process_emex]
    makes before it reads the archive (lines 57-58); they are not looked
    at here. *)
Definition write_bytes (p : path) (b : bytes) : M world unit :=
  fun w =>
    if is_dir (fs w !! p) then (Raise (OSError (path_str p)), w)
    else (Ok tt,
          World (media_paths w) (<[p := File b]> (fs w)) (log w)
                (written w ++ [(p, b)])).

(** [media_paths[key] = p] *)
Definition media_paths_setitem (key : string) (p : path) : M world unit :=
  modify (fun w => World (<[key := p]> (media_paths w)) (fs w) (log w) (written w)).

(** [p.mkdir(parents=True, exist_ok=True)]: every prefix of [p] becomes a
    directory unless a file is in the way. *)
Definition mkdir1 (p : path) : M world unit :=
  fun w =>
    match fs w !! p with
    | Some (File _) => (Raise (OSError (path_str p)), w)
    | _ => (Ok tt, World (media_paths w) (<[p := Dir]> (fs w)) (log w) (written w))
    end.

Fixpoint mkdir_from (made todo : path) : M world unit :=
  match todo with
  | [] => ret tt
  | c :: todo' => mkdir1 (made ++ [c]) ;; mkdir_from (made ++ [c]) todo'
  end.

Definition mkdir (p : path) : M world unit := mkdir_from [] p.

(** What the body of the loop of [iterate_emex] does with one element: go
    on to the next element, yield, or raise. *)
Inductive body_step : Type :=
| Continue (l : locals)
| YieldHere (note : option Note) (resource : option Resource)
            (records : list log_record)
| RaiseHere (e : exn) (records : list log_record).

(** What a resumed generator does next. *)
Inductive generator_step : Type :=
| Yield (note : option Note) (resource : option Resource)
        (records : list log_record) (l : locals) (rest : list parse_event)
| StopIteration
| Raised (e : exn) (records : list log_record).

Section Pipeline.

Context `{Collaborators} `{HTML2Text}.

(** Lines 95 to 104, for one element delivered by [iterparse].
    [media_paths] is the caller's dictionary as it is at that time. *)
Definition element_body (media_paths : gmap string path) (l : locals)
           (ev : parse_event) : body_step :=
  match ev with
  | Malformed => RaiseHere ParseError []
  | End tag text =>
      if String.eqb tag "title" then
        Continue (Locals (Some text) (content l) (data l))
      else if String.eqb tag "content" then
        Continue (Locals (title l) (Some text) (data l))
      else if String.eqb tag "data" then
        match Base64.b64decode (or_empty text) with
        | Ok d => Continue (Locals (title l) (content l) (Some d))
        | Raise e => RaiseHere e []
        end
      else if String.eqb tag "resource" then
        match data l with
        | Some d => YieldHere None (Some (mkResource d)) []
        | None => RaiseHere (UnboundLocalError "data") []
        end
      else if String.eqb tag "note" then
        match title l, content l with
        | None, _ => RaiseHere (UnboundLocalError "title") []
        | Some _, None => RaiseHere (UnboundLocalError "content") []
        | Some t, Some c =>
            match handle media_paths c with
            | (Ok text, records) => YieldHere (Some (mkNote t text)) None records
            | (Raise e, records) => RaiseHere e records
            end
        end
      else Continue l
  end.

(** [iterate_emex], resumed with local variables [l] at the events
    [emex_file] that are left: it runs to its next [yield] (keeping the
    local variables and the events after it), to the end, or to an
    exception. *)
Fixpoint iterate_emex (media_paths : gmap string path) (l : locals)
         (emex_file : list parse_event) : generator_step :=
  match emex_file with
  | [] => StopIteration
  | ev :: rest =>
      match element_body media_paths l ev with
      | Continue l' => iterate_emex media_paths l' rest
      | YieldHere note resource records => Yield note resource records l rest
      | RaiseHere e records => Raised e records
      end
  end.

Variable output_path : path.

Definition relative_media_path : path := ["media"].

Definition media_path : path := output_path ++ relative_media_path.

(** Lines 64 to 68: the note is written under its slug. *)
Definition save_note (note : Note) : M world unit :=
  logging INFO ("Note: " +:+ py_str (note_title note)) ;;
  slug <- lift (slugify (note_title note)) ;;
  let file_path := path_div output_path (slug +:+ extsep +:+ "md") in
  logging INFO ("Saving " +:+ path_str file_path) ;;
  write_bytes file_path (list_byte_of_string (note_content note)).

(** Lines 70 to 83: the resource is saved under the name made of its
    hash and extension, and that name is recorded under the hash. *)
Definition save_resource (resource : Resource) : M world unit :=
  let hex_digest := MD5.hexdigest (resource_data resource) in
  let mime_type := from_buffer (resource_data resource) in
  extension <- lift (getitem EXTENSIONS mime_type) ;;
  let file_name := hex_digest +:+ extsep +:+ extension in
  let file_path := path_div media_path file_name in
  present <- path_exists file_path ;;
  (if negb present then
     logging INFO ("Saving " +:+ path_str file_path) ;;
     write_bytes file_path (resource_data resource)
   else
     logging INFO ("Already exists, skipping: " +:+ path_str file_path)) ;;
  media_paths_setitem hex_digest (path_div relative_media_path file_name).

(** The body of the [for] loop of [process_emex]. *)
Definition loop_body (note : option Note) (resource : option Resource)
  : M world unit :=
  (match note with
   | Some n => save_note n
   | None => ret tt
   end) ;;
  match resource with
  | Some r => save_resource r
  | None => ret tt
  end.

(** The [for] loop: resume the generator, run the body on what it
    yields, again.  [None] is a loop cut short by [fuel]. *)
Fixpoint for_loop (fuel : nat) (l : locals) (emex_file : list parse_event)
         (w : world) : option (result unit * world) :=
  match fuel with
  | O => None
  | S fuel' =>
      match iterate_emex (media_paths w) l emex_file with
      | StopIteration => Some (Ok tt, w)
      | Raised e records => Some (Raise e, snd (logging_records records w))
      | Yield note resource records l' rest =>
          match loop_body note resource (snd (logging_records records w)) with
          | (Ok _, w') => for_loop fuel' l' rest w'
          | (Raise e, w') => Some (Raise e, w')
          end
      end
  end.

(** [process_emex(emex_file, output_path)] on the files [files]. *)
Definition process_emex (emex_file : list parse_event) (files : gmap path node)
  : option (result unit * world) :=
  let w0 := World ∅ files [] [] in
  match (logging INFO "Creating target directories…" ;;
         mkdir output_path ;;
         mkdir media_path) w0 with
  | (Ok _, w1) => for_loop (S (List.length emex_file)) no_locals emex_file w1
  | (Raise e, w1) => Some (Raise e, w1)
  end.

(** The same program one event at a time: what one event does to the
    local variables of the generator and to the world, the body of the
    consumer's loop included when the generator yields there. *)
Definition step (ev : parse_event) (l : locals) : M world locals :=
  fun w =>
    match element_body (media_paths w) l ev with
    | Continue l' => (Ok l', w)
    | YieldHere note resource records =>
        (logging_records records ;; loop_body note resource ;; ret l) w
    | RaiseHere e records => (logging_records records ;; raise e) w
    end.

Fixpoint run (emex_file : list parse_event) (l : locals) : M world locals :=
  match emex_file with
  | [] => ret l
  | ev :: rest => l' <- step ev l ;; run rest l'
  end.

(** What [for_loop] returns for the outcome of [run]. *)
Definition outcome (x : result locals * world) : result unit * world :=
  match x with
  | (Ok _, w) => (Ok tt, w)
  | (Raise e, w) => (Raise e, w)
  end.

(** A property of the world kept by logging, by saving a note and by
    saving a resource, whether they return or raise. *)
Definition stable (P : world -> Prop) : Prop :=
  (forall records w, P w -> P (snd (logging_records records w)))
  /\ (forall n w, P w -> P (snd (save_note n w)))
  /\ (forall r w, P w -> P (snd (save_resource r w))).

(** The file name of a payload with a known extension. *)
Definition file_name_of (d : bytes) (extension : string) : string :=
  MD5.hexdigest d +:+ extsep +:+ extension.

(** [d] is the payload the generator holds at the end of some resource
    among the events [pre]. *)
Definition yielded (l0 : locals) (w0 : world) (pre : list parse_event)
           (d : bytes) : Prop :=
  exists pre1 text pre2 l1 w1,
    pre = (pre1 ++ End "resource" text :: pre2)%list
    /\ run pre1 l0 w0 = (Ok l1, w1)
    /\ data l1 = Some d.

(** Every write went to a path that exists since. *)
Definition writes_tracked (w : world) : Prop :=
  forall f b, (f, b) ∈ written w -> is_Some (fs w !! f).

(** The writes to one file of the media directory. *)
Definition media_writes (name : string) (w : world) : list (path * bytes) :=
  filter (fun e => e.1 = path_div media_path name) (written w).

Definition media_written_once (w : world) : Prop :=
  forall name, (List.length (media_writes name w) <= 1)%nat.

(** Every write is that of a note in the output directory, or that of a
    payload in the media directory under the name made of its own
    fingerprint and extension, where it still is. *)
Definition writes_accounted (w : world) : Prop :=
  forall f b,
    (f, b) ∈ written w ->
    (exists slug, f = path_div output_path (slug +:+ extsep +:+ "md"))
    \/ (exists extension,
          EXTENSIONS !! from_buffer b = Some extension
          /\ f = path_div media_path (file_name_of b extension)
          /\ fs w !! f = Some (File b)).


End Pipeline.

(** ** A small instance to run the program on

    A MIME detection by magic numbers, a slug that keeps the title, and a
    converter that keeps the text and drops the tags it is given, fed by a
    minimal tag scanner.  The theorems below hold for every instance; this
    one serves to evaluate them. *)

Module Plain.

Fixpoint prefix_of (p b : bytes) : bool :=
  match p, b with
  | [], _ => true
  | x :: p', y :: b' => Byte.eqb x y && prefix_of p' b'
  | _ :: _, [] => false
  end.

Definition starts_with (prefix : string) (b : bytes) : bool :=
  prefix_of (list_byte_of_string prefix) b.

Definition sniff (b : bytes) : string :=
  match b with
  | [] => "application/x-empty"
  | _ =>
      if starts_with "GIF8" b then "image/gif"
      else if starts_with "%PDF" b then "application/pdf"
      else if starts_with "BM" b then "image/x-ms-bmp"
      else if starts_with "<svg" b then "image/svg+xml"
      else "text/plain"
  end.

#[export] Instance collaborators : Collaborators := {|
  from_buffer := sniff;
  slugify := fun t =>
    match t with
    | PyStr s => Ok s
    | PyNone => Raise (LibraryError "slugify")
    end
|}.

Definition chr (n : nat) : ascii := ascii_of_nat n.

(** The characters before the first [c], and those after it if there
    is one. *)
Fixpoint break (c : ascii) (s : list ascii) : list ascii * option (list ascii) :=
  match s with
  | [] => ([], None)
  | x :: s' =>
      if Ascii.eqb x c then ([], Some s')
      else let '(before, after) := break c s' in (x :: before, after)
  end.

Fixpoint words (fuel : nat) (s : list ascii) : list (list ascii) :=
  match fuel with
  | O => []
  | S fuel' =>
      match break (chr 32) s with
      | (w, Some rest) => w :: words fuel' rest
      | (w, None) => [w]
      end
  end.

Definition unquote (s : list ascii) : list ascii :=
  filter (fun x => negb (Ascii.eqb x (chr 34))) s.

Definition attribute (w : list ascii) : string * pyval :=
  match break (chr 61) w with
  | (name, Some value) =>
      (string_of_list_ascii name, PyStr (string_of_list_ascii (unquote value)))
  | (name, None) => (string_of_list_ascii name, PyNone)
  end.

Definition nonempty (w : list ascii) : bool :=
  match w with [] => false | _ => true end.

Definition tag_callbacks (inside : list ascii) : list (callback string) :=
  match inside with
  | c :: name =>
      if Ascii.eqb c (chr 47) then [EndTag (string_of_list_ascii name)]
      else
        let closed := Ascii.eqb (List.last inside (chr 32)) (chr 47) in
        let body := if closed then removelast inside else inside in
        match filter nonempty (words (S (List.length body)) body) with
        | name :: attrs =>
            StartTag (string_of_list_ascii name) (List.map attribute attrs)
            :: (if closed then [EndTag (string_of_list_ascii name)] else [])
        | [] => []
        end
  | [] => []
  end.

Fixpoint scan (fuel : nat) (s : list ascii) : list (callback string) :=
  match fuel with
  | O => []
  | S fuel' =>
      match s with
      | [] => []
      | c :: s' =>
          if Ascii.eqb c (chr 60) then
            match break (chr 62) s' with
            | (inside, Some rest) => tag_callbacks inside ++ scan fuel' rest
            | (_, None) => [ParserError "EOF in middle of construct"]
            end
          else
            match break (chr 60) s with
            | (text, Some rest) =>
                Other (string_of_list_ascii text) :: scan fuel' (chr 60 :: rest)
            | (text, None) => [Other (string_of_list_ascii text)]
            end
      end
  end.

#[export] Instance html2text : HTML2Text := {|
  conv := string;
  other := string;
  conv_init := "";
  HTMLParser_feed := fun c =>
    match c with
    | PyStr s => scan (S (String.length s)) (list_ascii_of_string s)
    | PyNone => [Other "None"]
    end;
  o := fun text out => out +:+ text;
  super_handle_starttag := fun _ _ out => Ok out;
  super_handle_endtag := fun _ out => Ok out;
  handle_other := fun text out => Ok (out +:+ text);
  finish := fun out => Ok out
|}.

(** A note with a title, a content of two references and a checked
    item, and one resource: the empty payload. *)
Definition groceries : list parse_event :=
  [ End "title" (PyStr "Groceries");
    End "content" (PyStr
      "<en-note><en-todo checked=true/>Milk <en-media hash=d41d8cd98f00b204e9800998ecf8427e title=pic/></en-note>");
    End "data" PyNone;
    End "resource" PyNone;
    End "note" PyNone ].

End Plain.

(** ** Inputs and worlds to evaluate the theorems on *)

(** The world of an empty output directory. *)
Definition empty_world : world := World ∅ ∅ [] [].

(** The events of [Plain.groceries] before the end of the note. *)
Definition before_note : list parse_event :=
  [ End "title" (PyStr "Groceries");
    End "content" (PyStr
      "<en-note><en-todo checked=true/>Milk <en-media hash=d41d8cd98f00b204e9800998ecf8427e title=pic/></en-note>");
    End "data" PyNone;
    End "resource" PyNone ].

Definition after_resource : world :=
  snd (run (H := Plain.collaborators) (H0 := Plain.html2text) ["out"] before_note
           no_locals empty_world).

Definition locals_after_resource : locals :=
  Locals (Some (PyStr "Groceries"))
         (Some (PyStr
            "<en-note><en-todo checked=true/>Milk <en-media hash=d41d8cd98f00b204e9800998ecf8427e title=pic/></en-note>"))
         (Some []).

(** The empty payload registered once, and the world after the events
    [before_note] ran from there. *)
Definition registered_once : world :=
  snd (save_resource (H := Plain.collaborators) ["out"] (mkResource []) empty_world).

Definition registered_then_run : world :=
  snd (run (H := Plain.collaborators) (H0 := Plain.html2text) ["out"] before_note
           no_locals registered_once).

(** A registry with one entry, and a parser that has emitted nothing. *)
Definition one_entry : gmap string path :=
  {[ "900150983cd24fb0d6963f7d28e17f72" := ["media"; "900150983cd24fb0d6963f7d28e17f72.gif"] ]}.

Definition fresh_parser : parser (H := Plain.html2text) :=
  Parser (H := Plain.html2text) "" [].

(** ** Notions to state further properties *)

(** The callbacks [ContentParser] answers with [pass]: the start of
    [en-note], and the ends of the four tags of its own. *)
Definition skipped {X} (cb : callback X) : bool :=
  match cb with
  | StartTag tag _ => String.eqb tag "en-note"
  | EndTag tag => existsb (String.eqb tag) ["en-note"; "en-media"; "en-crypt"; "en-todo"]
  | _ => false
  end.

Fixpoint without_skipped {X} (cbs : list (callback X)) : list (callback X) :=
  match cbs with
  | [] => []
  | cb :: cbs' => if skipped cb then without_skipped cbs' else cb :: without_skipped cbs'
  end.

(** The start of an embedded-media reference. *)
Definition is_en_media {X} (cb : callback X) : bool :=
  match cb with
  | StartTag tag _ => String.eqb tag "en-media"
  | _ => false
  end.

(** The end of an element with the given tag. *)
Definition has_tag (name : string) (ev : parse_event) : bool :=
  match ev with
  | End tag _ => String.eqb tag name
  | Malformed => false
  end.

(** The events [iterate_emex] has a branch for. *)
Definition surfaces (ev : parse_event) : bool :=
  match ev with
  | End tag _ => existsb (String.eqb tag) ["title"; "content"; "data"; "resource"; "note"]
  | Malformed => true
  end.

Fixpoint surfacing (emex_file : list parse_event) : list parse_event :=
  match emex_file with
  | [] => []
  | ev :: rest => if surfaces ev then ev :: surfacing rest else surfacing rest
  end.

(** The standard Base64 encoding (RFC 4648, with padding), to state what
    [b64decode] undoes. *)
Module Base64Encode.

Definition alphabet : string :=
  "ABCDEFGHIJKLMNOPQRSTUVWXYZabcdefghijklmnopqrstuvwxyz0123456789+/".

Definition pad_char : ascii := ascii_of_nat 61.

Definition digit (v : Z) : ascii :=
  nth (Z.to_nat v) (list_ascii_of_string alphabet) pad_char.

(** The four digits of three bytes. *)
Definition s0 (x : Z) : Z := Z.shiftr x 2.
Definition s1 (x y : Z) : Z := Z.lor (Z.shiftl (Z.land x 3) 4) (Z.shiftr y 4).
Definition s2 (y z : Z) : Z := Z.lor (Z.shiftl (Z.land y 15) 2) (Z.shiftr z 6).
Definition s3 (z : Z) : Z := Z.land z 63.

Definition val (b : byte) : Z := Z.of_N (Byte.to_N b).

Fixpoint b64encode (b : bytes) : list ascii :=
  match b with
  | [] => []
  | [b0] => [digit (s0 (val b0)); digit (s1 (val b0) 0); pad_char; pad_char]
  | [b0; b1] =>
      [digit (s0 (val b0)); digit (s1 (val b0) (val b1)); digit (s2 (val b1) 0); pad_char]
  | b0 :: b1 :: b2 :: rest =>
      digit (s0 (val b0)) :: digit (s1 (val b0) (val b1))
      :: digit (s2 (val b1) (val b2)) :: digit (s3 (val b2)) :: b64encode rest
  end.

(** The characters the decoder looks at: the digits and the padding. *)
Definition significant (c : ascii) : bool :=
  Base64.is_pad c || bool_decide (is_Some (Base64.sextet c)).

(** The values of a byte, and what the decoder has to find for a digit and
    for the bytes of a group. *)
Definition byte_values : list Z := List.map Z.of_nat (seq 0 256).

Definition digit_ok (v : Z) : bool :=
  negb (Base64.is_pad (digit v))
  && match Base64.sextet (digit v) with
     | Some v' => (v' =? v)%Z
     | None => false
     end.

Definition group_ok (x y : Z) : bool :=
  digit_ok (s0 x) && digit_ok (s1 x y) && digit_ok (s2 x y) && digit_ok (s3 x)
  && (Z.land (Z.lor (Z.shiftl (s0 x) 2) (Z.shiftr (s1 x y) 4)) 255 =? x)%Z
  && (Z.land (s1 x y) 15 =? Z.shiftr y 4)%Z
  && (Z.land (Z.lor (Z.shiftl (Z.shiftr x 4) 4) (Z.shiftr (s2 x y) 2)) 255 =? x)%Z
  && (Z.land (s2 x y) 3 =? Z.shiftr y 6)%Z
  && (Z.land (Z.lor (Z.shiftl (Z.shiftr x 6) 6) (s3 x)) 255 =? x)%Z.

(** The bytes already written for the group that is open. *)
Definition emitted (quad_pos : nat) : nat :=
  match quad_pos with
  | 2%nat => 1%nat
  | 3%nat => 2%nat
  | _ => 0%nat
  end.

End Base64Encode.




(** A write to a file of the output directory itself, which is where the
    notes go. *)
Definition is_note_write (output_path : path) (e : path * bytes) : bool :=
  Nat.eqb (List.length e.1) (S (List.length output_path)).

(** More inputs and worlds to evaluate the properties on: an output
    directory that already has a file under the name of the empty payload,
    a directory where the note of [Plain.groceries] is to be written, a
    note that refers to a resource no one registered, and the world the
    whole of [Plain.groceries] leaves. *)
Definition stale_world : world :=
  World ∅ {[ ["out"; "media"; "d41d8cd98f00b204e9800998ecf8427e.txt"]
             := File (list_byte_of_string "old") ]} [] [].

Definition directory_in_the_way : world :=
  World ∅ {[ ["out"; "Groceries.md"] := Dir ]} [] [].

Definition dangling_note : list parse_event :=
  [ End "title" (PyStr "Dangling"); End "content" (PyStr "<en-media hash=abc/>") ].

Definition locals_of_dangling_note : locals :=
  Locals (Some (PyStr "Dangling")) (Some (PyStr "<en-media hash=abc/>")) None.

Definition after_groceries : world :=
  snd (run (H := Plain.collaborators) (H0 := Plain.html2text) ["out"] Plain.groceries
           no_locals empty_world).

(** * Properties *)

(** ** The library functions on known values *)

(** The test suite of RFC 1321, appendix A.5. *)
Example md5_empty : MD5.hexdigest [] = "d41d8cd98f00b204e9800998ecf8427e".
Proof. vm_compute. reflexivity. Qed.

Example md5_a :
  MD5.hexdigest (list_byte_of_string "a") = "0cc175b9c0f1b6a831c399e269772661".
Proof. vm_compute. reflexivity. Qed.

Example md5_abc :
  MD5.hexdigest (list_byte_of_string "abc") = "900150983cd24fb0d6963f7d28e17f72".
Proof. vm_compute. reflexivity. Qed.

Example md5_two_blocks :
  MD5.hexdigest (list_byte_of_string
    "12345678901234567890123456789012345678901234567890123456789012345678901234567890")
  = "57edf4a22be3c955ac49da2e2107b67a".
Proof. vm_compute. reflexivity. Qed.

Example b64decode_hello :
  Base64.b64decode "aGVsbG8=" = Ok (list_byte_of_string "hello").
Proof. vm_compute. reflexivity. Qed.

Example b64decode_newlines :
  Base64.b64decode (String (ascii_of_nat 10) "aGVs bG8h") = Ok (list_byte_of_string "hello!").
Proof. vm_compute. reflexivity. Qed.

Example b64decode_two_pads :
  Base64.b64decode "YQ==" = Ok (list_byte_of_string "a").
Proof. vm_compute. reflexivity. Qed.

Example b64decode_one_left :
  Base64.b64decode "aGVsb" = Raise (BinasciiError
    "Invalid base64-encoded string: number of data characters (5) cannot be 1 more than a multiple of 4").
Proof. vm_compute. reflexivity. Qed.

(** ** Dictionaries built from attribute lists *)

Section Dict.

Context {V : Type}.

Implicit Types (pairs : list (string * V)) (m : gmap string V).

Lemma update_all_absent pairs m k :
  k ∉ pairs.*1 -> update_all pairs m !! k = m !! k.
Proof.
  revert m. induction pairs as [|[k' v'] pairs IH]; intros m Hk; [done|].
  cbn in *. apply not_elem_of_cons in Hk as [Hne Hk].
  unfold update_all in IH. rewrite IH by done.
  by rewrite lookup_insert_ne.
Qed.

Lemma update_all_None pairs m k :
  update_all pairs m !! k = None <-> m !! k = None /\ k ∉ pairs.*1.
Proof.
  revert m. induction pairs as [|[k' v'] pairs IH]; intros m; cbn.
  - split; [intros Hm; split; [done | apply not_elem_of_nil] | by intros [? _]].
  - unfold update_all in IH. rewrite IH, not_elem_of_cons.
    destruct (decide (k' = k)) as [->|Hne].
    + rewrite lookup_insert_eq. split; [by intros [? _] | by intros [_ [? _]]].
    + rewrite lookup_insert_ne by done.
      split; [intros [? ?] | intros [? [? ?]]]; auto.
Qed.


(** A key is missing from [dict(pairs)] exactly when no pair has it. *)
Lemma dict_lookup_None pairs k : dict pairs !! k = None <-> k ∉ pairs.*1.
Proof.
  unfold dict. fold (update_all pairs ∅). rewrite update_all_None.
  rewrite lookup_empty. split; [by intros [_ ?] | by intros ?].
Qed.


(** The last pair with a key wins. *)
Lemma dict_lookup_last pairs pairs' k v :
  k ∉ pairs'.*1 -> dict (pairs ++ (k, v) :: pairs') !! k = Some v.
Proof.
  intros Hk. unfold dict. rewrite fold_left_app. cbn.
  fold (update_all pairs ∅).
  fold (update_all pairs' (<[k:=v]> (update_all pairs ∅))).
  rewrite update_all_absent by done. apply lookup_insert_eq.
Qed.

End Dict.

(** ** The content transformer *)

Section ContentParserProperties.

Context `{HTML2Text}.

Implicit Types (media_paths : gmap string path) (p : parser)
         (attrs : list (string * pyval)) (cbs pre post : list (callback other)).

Lemma feed_app media_paths pre post p :
  feed media_paths (pre ++ post) p =
  match feed media_paths pre p with
  | (Ok _, p') => feed media_paths post p'
  | (Raise e, p') => (Raise e, p')
  end.
Proof.
  revert p. induction pre as [|cb pre IH]; intros p; [done|].
  cbn. unfold bind. destruct (callback_handle media_paths cb p) as [[[]|e] p']; [|done].
  apply IH.
Qed.

(** A content whose callbacks so far went well goes on with the next
    one. *)
Lemma feed_next media_paths pre cb post p p1 :
  feed media_paths pre p = (Ok tt, p1) ->
  feed media_paths (pre ++ cb :: post) p =
  match callback_handle media_paths cb p1 with
  | (Ok _, p2) => feed media_paths post p2
  | (Raise e, p2) => (Raise e, p2)
  end.
Proof. intros Hpre. rewrite feed_app, Hpre. reflexivity. Qed.

(** An exception in a callback ends the content, whatever went before. *)
Lemma feed_raises media_paths pre cb post p :
  (forall p1, exists e, callback_handle media_paths cb p1 = (Raise e, p1)) ->
  exists e p', feed media_paths (pre ++ cb :: post) p = (Raise e, p').
Proof.
  intros Hcb. rewrite feed_app.
  destruct (feed media_paths pre p) as [[[]|e] p1]; [|by eauto].
  cbn. unfold bind. destruct (Hcb p1) as [e ->]. eauto.
Qed.

Lemma handle_raises media_paths c e p' :
  feed media_paths (HTMLParser_feed c) (Parser conv_init []) = (Raise e, p') ->
  handle media_paths c = (Raise e, plog p').
Proof. unfold handle. by intros ->. Qed.

Lemma handle_starttag_en_media media_paths attrs p :
  handle_starttag media_paths "en-media" attrs p =
  match dict attrs !! "hash" with
  | None => (Raise (KeyError (PyStr "hash")), p)
  | Some v =>
      match media_paths_getitem media_paths v with
      | Raise e => (Raise e, p)
      | Ok f =>
          (Ok tt,
           Parser (o ("![" +:+ py_str (get (dict attrs) "title" (PyStr "")) +:+ "]("
                      +:+ path_str f +:+ ")") (generic p))
                  (plog p))
      end
  end.
Proof.
  unfold handle_starttag, getitem, bind, lift. cbn.
  destruct (dict attrs !! "hash") as [v|]; [|done].
  by destruct (media_paths_getitem media_paths v).
Qed.

Lemma handle_starttag_en_todo media_paths attrs p :
  handle_starttag media_paths "en-todo" attrs p =
  (Ok tt,
   Parser (o (if truthy (get (dict attrs) "checked" PyNone) then "[x]" else "[ ]")
             (generic p))
          (plog p)).
Proof. reflexivity. Qed.

Lemma handle_starttag_en_crypt media_paths attrs p :
  handle_starttag media_paths "en-crypt" attrs p =
  (Ok tt, Parser (generic p) (plog p ++ [(ERROR, "<en-crypt> is not implemented.")])).
Proof. reflexivity. Qed.

(** C6, as the code has it.  A checkable-item marker makes the
    transformer emit [[x]] when its [checked] attribute has a non-empty
    value, and [[ ]] when the attribute is absent, has no value or has the
    empty value; what came before it in the note and what the registry
    holds play no part, and the rest of the note is transformed after
    it. *)
Theorem en_todo_checkbox media_paths attrs pre post p p1 :
  feed media_paths pre p = (Ok tt, p1) ->
  (forall s, s <> "" -> dict attrs !! "checked" = Some (PyStr s) ->
     feed media_paths (pre ++ StartTag "en-todo" attrs :: post) p
     = feed media_paths post (Parser (o "[x]" (generic p1)) (plog p1)))
  /\ ("checked" ∉ attrs.*1 ->
     feed media_paths (pre ++ StartTag "en-todo" attrs :: post) p
     = feed media_paths post (Parser (o "[ ]" (generic p1)) (plog p1)))
  /\ (dict attrs !! "checked" = Some PyNone
      \/ dict attrs !! "checked" = Some (PyStr "") ->
     feed media_paths (pre ++ StartTag "en-todo" attrs :: post) p
     = feed media_paths post (Parser (o "[ ]" (generic p1)) (plog p1))).
Proof.
  intros Hpre. rewrite (feed_next _ _ _ _ _ _ Hpre). cbn [callback_handle].
  rewrite handle_starttag_en_todo. unfold get.
  split; [|split].
  - intros s Hs ->. cbn. destruct (String.eqb_spec s ""); [done|reflexivity].
  - intros Habs. apply dict_lookup_None in Habs. rewrite Habs. reflexivity.
  - intros [-> | ->]; reflexivity.
Qed.

(** C9.  An encrypted-content marker leaves the output of the
    transformer as it was, logs one error record, and the transformation
    goes on with the rest of the note. *)
Theorem en_crypt_skipped media_paths attrs pre post p p1 :
  feed media_paths pre p = (Ok tt, p1) ->
  handle_starttag media_paths "en-crypt" attrs p1
  = (Ok tt, Parser (generic p1) (plog p1 ++ [(ERROR, "<en-crypt> is not implemented.")]))
  /\ feed media_paths (pre ++ StartTag "en-crypt" attrs :: post) p
     = feed media_paths post
         (Parser (generic p1) (plog p1 ++ [(ERROR, "<en-crypt> is not implemented.")])).
Proof.
  intros Hpre. split; [reflexivity|].
  rewrite (feed_next _ _ _ _ _ _ Hpre). reflexivity.
Qed.

End ContentParserProperties.

(** ** References the registry cannot resolve *)

Section UnresolvedReferences.

Context `{HTML2Text}.

Implicit Types (media_paths : gmap string path) (p : parser)
         (attrs : list (string * pyval)) (pre post : list (callback other))
         (l : locals) (rest : list parse_event).

(** The generator at the end of a note: the content is transformed with
    the dictionary as it is then. *)
Lemma iterate_emex_note media_paths l t c text rest :
  title l = Some t -> content l = Some c ->
  iterate_emex media_paths l (End "note" text :: rest) =
  match handle media_paths c with
  | (Ok markdown, records) => Yield (Some (mkNote t markdown)) None records l rest
  | (Raise e, records) => Raised e records
  end.
Proof.
  intros Ht Hc. cbn. rewrite Ht, Hc.
  by destruct (handle media_paths c) as [[markdown|e] records].
Qed.

(** What follows from a start tag whose handler raises [e] in every
    state of the parser. *)
Lemma failing_starttag media_paths tag attrs e :
  (forall p, handle_starttag media_paths tag attrs p = (Raise e, p)) ->
  (forall pre post p0 p,
      feed media_paths pre p0 = (Ok tt, p) ->
      feed media_paths (pre ++ StartTag tag attrs :: post) p0 = (Raise e, p))
  /\ (forall c pre post,
         HTMLParser_feed c = (pre ++ StartTag tag attrs :: post)%list ->
         exists e' records, handle media_paths c = (Raise e', records))
  /\ (forall c pre post l t text rest,
         HTMLParser_feed c = (pre ++ StartTag tag attrs :: post)%list ->
         title l = Some t -> content l = Some c ->
         exists e' records,
           iterate_emex media_paths l (End "note" text :: rest) = Raised e' records).
Proof.
  intros Hraise.
  assert (Hnote : forall c pre post,
             HTMLParser_feed c = (pre ++ StartTag tag attrs :: post)%list ->
             exists e' records, handle media_paths c = (Raise e', records)).
  { intros c pre post Hc.
    destruct (feed_raises media_paths pre (StartTag tag attrs) post (Parser conv_init []))
      as (e' & p' & Hfeed).
    - intros p1. exists e. apply Hraise.
    - exists e', (plog p'). apply handle_raises. by rewrite Hc. }
  split; [|split].
  - intros pre post p0 p Hpre. rewrite (feed_next _ _ _ _ _ _ Hpre).
    cbn [callback_handle]. by rewrite Hraise.
  - exact Hnote.
  - intros c pre post l t text rest Hc Ht Hcontent.
    destruct (Hnote c pre post Hc) as (e' & records & Hh).
    exists e', records. rewrite (iterate_emex_note _ _ t c) by done. by rewrite Hh.
Qed.

(** C3.  An embedded-media reference whose [hash] value is not a key of
    the registry raises [KeyError] for that value and emits nothing; a
    note whose content has such a reference is not transformed: [handle]
    raises, and so does the generator at the end of that note. *)
Theorem en_media_unknown_hash media_paths attrs v :
  dict attrs !! "hash" = Some v ->
  (forall h, v = PyStr h -> media_paths !! h = None) ->
  (forall p, handle_starttag media_paths "en-media" attrs p = (Raise (KeyError v), p))
  /\ (forall pre post p0 p,
         feed media_paths pre p0 = (Ok tt, p) ->
         feed media_paths (pre ++ StartTag "en-media" attrs :: post) p0
         = (Raise (KeyError v), p))
  /\ (forall c pre post,
         HTMLParser_feed c = (pre ++ StartTag "en-media" attrs :: post)%list ->
         exists e records, handle media_paths c = (Raise e, records))
  /\ (forall c pre post l t text rest,
         HTMLParser_feed c = (pre ++ StartTag "en-media" attrs :: post)%list ->
         title l = Some t -> content l = Some c ->
         exists e records,
           iterate_emex media_paths l (End "note" text :: rest) = Raised e records).
Proof.
  intros Hhash Hkey.
  assert (Hraise : forall p,
             handle_starttag media_paths "en-media" attrs p = (Raise (KeyError v), p)).
  { intros p. rewrite handle_starttag_en_media, Hhash.
    destruct v as [|h]; [done|]. cbn. by rewrite (Hkey h). }
  split; [exact Hraise|]. by apply failing_starttag.
Qed.

(** C10.  An embedded-media reference without a [hash] attribute raises
    [KeyError] for the attribute name, whatever the registry holds, and
    emits nothing; the note that has it is not transformed. *)
Theorem en_media_without_hash media_paths attrs :
  "hash" ∉ attrs.*1 ->
  (forall p, handle_starttag media_paths "en-media" attrs p
             = (Raise (KeyError (PyStr "hash")), p))
  /\ (forall pre post p0 p,
         feed media_paths pre p0 = (Ok tt, p) ->
         feed media_paths (pre ++ StartTag "en-media" attrs :: post) p0
         = (Raise (KeyError (PyStr "hash")), p))
  /\ (forall c pre post,
         HTMLParser_feed c = (pre ++ StartTag "en-media" attrs :: post)%list ->
         exists e records, handle media_paths c = (Raise e, records))
  /\ (forall c pre post l t text rest,
         HTMLParser_feed c = (pre ++ StartTag "en-media" attrs :: post)%list ->
         title l = Some t -> content l = Some c ->
         exists e records,
           iterate_emex media_paths l (End "note" text :: rest) = Raised e records).
Proof.
  intros Habs. apply dict_lookup_None in Habs.
  assert (Hraise : forall p,
             handle_starttag media_paths "en-media" attrs p
             = (Raise (KeyError (PyStr "hash")), p)).
  { intros p. by rewrite handle_starttag_en_media, Habs. }
  split; [exact Hraise|]. by apply failing_starttag.
Qed.

End UnresolvedReferences.

(** ** Decoding the text of a [data] element *)

Module Base64Facts.

Import Base64.

Lemma digits_cons_digit c v s : sextet c = Some v -> digits (c :: s) = S (digits s).
Proof.
  intros Hc. unfold digits. rewrite filter_cons_True; [done|].
  apply bool_decide_spec. by rewrite Hc.
Qed.

Lemma digits_cons_other c s : sextet c = None -> digits (c :: s) = digits s.
Proof.
  intros Hc. unfold digits. rewrite filter_cons_False; [done|].
  intros Hd. apply bool_decide_spec in Hd. rewrite Hc in Hd. by destruct Hd.
Qed.

Lemma mod4_shift n : ((4 + n) mod 4 = n mod 4)%nat.
Proof.
  replace (4 + n)%nat with (n + 1 * 4)%nat by lia. apply Nat.Div0.mod_add.
Qed.

(** Without padding characters the loop only counts digits: it ends well
    exactly when they fill whole groups of four. *)
Lemma a2b_loop_no_pad s :
  existsb is_pad s = false ->
  forall quad_pos leftchar pads out,
    (quad_pos < 4)%nat ->
    if decide (((quad_pos + digits s) mod 4)%nat = 0%nat)
    then exists b, a2b_loop s quad_pos leftchar pads out = Ok b
    else exists msg, a2b_loop s quad_pos leftchar pads out = Raise (BinasciiError msg).
Proof.
  induction s as [|c s IH]; intros Hpad quad_pos leftchar pads out Hq.
  - replace (quad_pos + digits [])%nat with quad_pos by (unfold digits; cbn; lia).
    destruct quad_pos as [|[|[|[|?]]]]; try lia; cbn;
      case_decide; try done; unfold length_error; eauto.
  - cbn in Hpad. apply orb_false_iff in Hpad as [Hc Hpad].
    cbn [a2b_loop]. rewrite Hc.
    destruct (sextet c) as [v|] eqn:Hv.
    + rewrite (digits_cons_digit _ _ _ Hv).
      destruct quad_pos as [|[|[|[|?]]]]; try lia.
      * replace (0 + S (digits s))%nat with (1 + digits s)%nat by lia.
        apply (IH Hpad 1%nat); lia.
      * replace (1 + S (digits s))%nat with (2 + digits s)%nat by lia.
        apply (IH Hpad 2%nat); lia.
      * replace (2 + S (digits s))%nat with (3 + digits s)%nat by lia.
        apply (IH Hpad 3%nat); lia.
      * replace (3 + S (digits s))%nat with (4 + (0 + digits s))%nat by lia.
        rewrite mod4_shift. apply (IH Hpad 0%nat); lia.
    + rewrite (digits_cons_other _ _ Hv). by apply IH.
Qed.

(** A text of ASCII characters, none of them [=], whose digits do not
    fill whole groups of four is rejected. *)
Lemma b64decode_open_group s :
  forallb is_ascii (list_ascii_of_string s) = true ->
  existsb is_pad (list_ascii_of_string s) = false ->
  (digits (list_ascii_of_string s) mod 4)%nat <> 0%nat ->
  exists msg, b64decode s = Raise (BinasciiError msg).
Proof.
  intros Hascii Hpad Hopen. unfold b64decode, a2b_base64. rewrite Hascii.
  pose proof (a2b_loop_no_pad _ Hpad 0%nat 0 0%nat []) as Hloop.
  cbn [Nat.add] in Hloop. destruct (decide _) as [Heq|_]; [done|].
  apply Hloop. lia.
Qed.

Lemma b64decode_empty : b64decode "" = Ok [].
Proof. reflexivity. Qed.

(** Between two groups the loop passes over what is not of the alphabet,
    padding characters included. *)
Lemma a2b_loop_no_digit s :
  digits s = 0%nat ->
  forall leftchar pads out, a2b_loop s 0 leftchar pads out = Ok (rev out).
Proof.
  induction s as [|c s IH]; intros Hd leftchar pads out; [reflexivity|].
  destruct (sextet c) as [v|] eqn:Hv.
  - by rewrite (digits_cons_digit _ _ _ Hv) in Hd.
  - rewrite (digits_cons_other _ _ Hv) in Hd.
    cbn [a2b_loop Nat.leb]. rewrite Hv. destruct (is_pad c); by apply IH.
Qed.

(** A text of ASCII characters none of which is of the alphabet is
    decoded to no bytes. *)
Lemma b64decode_no_digit s :
  forallb is_ascii (list_ascii_of_string s) = true ->
  digits (list_ascii_of_string s) = 0%nat ->
  b64decode s = Ok [].
Proof.
  intros Hascii Hd. unfold b64decode, a2b_base64. rewrite Hascii.
  by rewrite a2b_loop_no_digit.
Qed.

End Base64Facts.

(** ** The pipeline *)

#[global] Arguments MD5.hexdigest : simpl never.
#[global] Arguments EXTENSIONS : simpl never.

Section PipelineProperties.

Context `{Collaborators} `{HTML2Text}.

Implicit Types (output_path : path) (w : world) (l : locals)
         (r : Resource) (emex_file pre rest : list parse_event).

Lemma run_app output_path pre rest l w :
  run output_path (pre ++ rest) l w =
  match run output_path pre l w with
  | (Ok l1, w1) => run output_path rest l1 w1
  | (Raise e, w1) => (Raise e, w1)
  end.
Proof.
  revert l w. induction pre as [|ev pre IH]; intros l w; [done|].
  cbn. unfold bind. destruct (step output_path ev l w) as [[l1|e] w1]; [|done].
  apply IH.
Qed.

(** The loop of [process_emex] over the resumable generator does what the
    event-by-event reading says, and never lacks fuel when it is given
    more than the number of events. *)
Lemma for_loop_run output_path emex_file :
  forall fuel l w,
    (List.length emex_file < fuel)%nat ->
    for_loop output_path fuel l emex_file w
    = Some (outcome (run output_path emex_file l w)).
Proof.
  induction emex_file as [|ev rest IH]; intros fuel l w Hfuel.
  - destruct fuel; [cbn in Hfuel; lia | reflexivity].
  - destruct fuel as [|fuel]; [cbn in Hfuel; lia|].
    cbn in Hfuel.
    cbn [for_loop iterate_emex run]. unfold bind, step.
    destruct (element_body (media_paths w) l ev) as [l'|note resource records|e records].
    + rewrite <- (IH (S fuel) l' w) by lia. reflexivity.
    + unfold bind.
      destruct (logging_records records w) as [[[]|e0] w0] eqn:Hlog;
        [|discriminate Hlog].
      cbn [snd].
      destruct (loop_body output_path note resource w0) as [[[]|e1] w1]; [|done].
      cbn. apply IH. lia.
    + reflexivity.
Qed.

Lemma for_loop_app output_path pre rest l0 w0 l w :
  run output_path pre l0 w0 = (Ok l, w) ->
  for_loop output_path (S (List.length (pre ++ rest))) l0 (pre ++ rest) w0
  = for_loop output_path (S (List.length rest)) l rest w.
Proof.
  intros Hpre. rewrite !for_loop_run by lia. by rewrite run_app, Hpre.
Qed.

(** An exception raised in the generator with nothing to log ends the
    step in the world it started in. *)
Lemma step_raise_here output_path ev l w e :
  element_body (media_paths w) l ev = RaiseHere e [] ->
  step output_path ev l w = (Raise e, w).
Proof.
  intros Hbody. unfold step. rewrite Hbody.
  cbv beta iota delta [bind logging_records modify raise].
  destruct w. cbn. by rewrite app_nil_r.
Qed.

(** Every prefix of events that ran without an exception has prefixes
    that did. *)
Lemma run_app_ok output_path pre rest l0 w0 l w :
  run output_path (pre ++ rest) l0 w0 = (Ok l, w) ->
  exists l1 w1,
    run output_path pre l0 w0 = (Ok l1, w1) /\ run output_path rest l1 w1 = (Ok l, w).
Proof.
  rewrite run_app. destruct (run output_path pre l0 w0) as [[l1|e] w1]; [|done].
  eauto.
Qed.

Lemma save_resource_unfold output_path r w :
  save_resource output_path r w =
  match EXTENSIONS !! from_buffer (resource_data r) with
  | None => (Raise (KeyError (PyStr (from_buffer (resource_data r)))), w)
  | Some extension =>
      let hex_digest := MD5.hexdigest (resource_data r) in
      let file_name := hex_digest +:+ extsep +:+ extension in
      let file_path := path_div (media_path output_path) file_name in
      let recorded := <[hex_digest := path_div relative_media_path file_name]> (media_paths w) in
      (Ok tt,
       if bool_decide (is_Some (fs w !! file_path))
       then World recorded (fs w)
                  (log w ++ [(INFO, "Already exists, skipping: " +:+ path_str file_path)])
                  (written w)
       else World recorded (<[file_path := File (resource_data r)]> (fs w))
                  (log w ++ [(INFO, "Saving " +:+ path_str file_path)])
                  (written w ++ [(file_path, resource_data r)]))
  end.
Proof.
  unfold save_resource, bind, lift, getitem.
  destruct (EXTENSIONS !! from_buffer (resource_data r)) as [extension|]; [|done].
  cbv beta iota zeta delta [path_exists gets logging modify write_bytes
                            media_paths_setitem].
  set (file_path := path_div (media_path output_path)
                             (MD5.hexdigest (resource_data r) +:+ extsep +:+ extension)).
  destruct (bool_decide (is_Some (fs w !! file_path))) eqn:Hex; [reflexivity|].
  apply bool_decide_eq_false in Hex.
  cbn [negb fs media_paths log written].
  destruct (fs w !! file_path) as [n|] eqn:Hfs; [exfalso; apply Hex; eauto|].
  reflexivity.
Qed.

Lemma save_note_unfold output_path (n : Note) w :
  save_note output_path n w =
  let w1 := World (media_paths w) (fs w)
                  (log w ++ [(INFO, "Note: " +:+ py_str (note_title n))]) (written w) in
  match slugify (note_title n) with
  | Raise e => (Raise e, w1)
  | Ok slug =>
      let file_path := path_div output_path (slug +:+ extsep +:+ "md") in
      if is_dir (fs w !! file_path) then
        (Raise (OSError (path_str file_path)),
         World (media_paths w) (fs w)
               ((log w ++ [(INFO, "Note: " +:+ py_str (note_title n))])
                  ++ [(INFO, "Saving " +:+ path_str file_path)])
               (written w))
      else
        (Ok tt,
         World (media_paths w)
               (<[file_path := File (list_byte_of_string (note_content n))]> (fs w))
               ((log w ++ [(INFO, "Note: " +:+ py_str (note_title n))])
                  ++ [(INFO, "Saving " +:+ path_str file_path)])
               (written w ++ [(file_path, list_byte_of_string (note_content n))]))
  end.
Proof.
  unfold save_note, bind, lift.
  cbv beta iota zeta delta [logging modify write_bytes].
  destruct (slugify (note_title n)) as [slug|e]; [|reflexivity].
  cbn [fs media_paths log written].
  by destruct (is_dir _).
Qed.

(** The generator at a [resource] element yields the payload it holds,
    and the consumer registers it before the generator goes on. *)
Lemma step_resource output_path text l w :
  step output_path (End "resource" text) l w =
  match data l with
  | None => (Raise (UnboundLocalError "data"), snd (logging_records [] w))
  | Some d =>
      match save_resource output_path (mkResource d) (snd (logging_records [] w)) with
      | (Ok _, w') => (Ok l, w')
      | (Raise e, w') => (Raise e, w')
      end
  end.
Proof.
  unfold step.
  change (element_body (media_paths w) l (End "resource" text))
    with (match data l with
          | Some d => YieldHere None (Some (mkResource d)) []
          | None => RaiseHere (UnboundLocalError "data") []
          end).
  destruct (data l) as [d|]; [|reflexivity].
  cbv beta iota delta [bind logging_records modify loop_body ret snd].
  by destruct (save_resource output_path (mkResource d) _) as [[[]|e] w'].
Qed.

Lemma logging_nothing w : snd (logging_records [] w) = w.
Proof. destruct w. cbn. by rewrite app_nil_r. Qed.

(** *** Properties of the world that every step keeps *)

Lemma step_preserves output_path P ev l w :
  stable output_path P -> P w -> P (snd (step output_path ev l w)).
Proof.
  intros (Hlog & Hnote & Hres) Hw. unfold step.
  destruct (element_body (media_paths w) l ev) as [l'|note resource records|e records].
  - exact Hw.
  - cbv beta iota delta [bind loop_body ret].
    pose proof (Hlog records w Hw) as Hw1.
    destruct (logging_records records w) as [[[]|e0] w1]; [|exact Hw1].
    cbn [snd] in Hw1.
    assert (Hmid : P (snd (match note with
                            | Some n => save_note output_path n
                            | None => fun s => (Ok tt, s)
                            end w1))).
    { destruct note as [n|]; [by apply Hnote | exact Hw1]. }
    destruct (match note with
              | Some n => save_note output_path n
              | None => fun s => (Ok tt, s)
              end w1) as [[[]|e1] w2]; [|exact Hmid].
    cbn [snd] in Hmid.
    assert (Hend : P (snd (match resource with
                            | Some r => save_resource output_path r
                            | None => fun s => (Ok tt, s)
                            end w2))).
    { destruct resource as [r|]; [by apply Hres | exact Hmid]. }
    destruct (match resource with
              | Some r => save_resource output_path r
              | None => fun s => (Ok tt, s)
              end w2) as [[[]|e2] w3]; exact Hend.
  - cbv beta iota delta [bind raise].
    pose proof (Hlog records w Hw) as Hw1.
    by destruct (logging_records records w) as [[[]|e0] w1].
Qed.

Lemma run_preserves output_path P emex_file :
  stable output_path P ->
  forall l w, P w -> P (snd (run output_path emex_file l w)).
Proof.
  intros Hst. induction emex_file as [|ev rest IH]; intros l w Hw; [exact Hw|].
  cbn [run]. unfold bind.
  pose proof (step_preserves output_path P ev l w Hst Hw) as Hstep.
  destruct (step output_path ev l w) as [[l1|e] w1]; [|exact Hstep].
  by apply IH.
Qed.

(** A fingerprint once recorded stays recorded, a file once there stays
    there. *)
Lemma stable_recorded output_path h :
  stable output_path (fun w => is_Some (media_paths w !! h)).
Proof.
  split; [|split].
  - by intros records [].
  - intros n w Hw. rewrite save_note_unfold. cbn zeta.
    destruct (slugify (note_title n)); [|done]. by destruct (is_dir _).
  - intros r w Hw. rewrite save_resource_unfold.
    destruct (EXTENSIONS !! from_buffer (resource_data r)) as [ext|]; [|done].
    cbn zeta. cbn [snd].
    destruct (bool_decide _); cbn [media_paths];
      rewrite lookup_insert; by case_decide.
Qed.

Lemma stable_file output_path (f : path) :
  stable output_path (fun w => is_Some (fs w !! f)).
Proof.
  split; [|split].
  - by intros records [].
  - intros n w Hw. rewrite save_note_unfold. cbn zeta.
    destruct (slugify (note_title n)); [|done].
    destruct (is_dir _); [done|].
    cbn [snd fs]. rewrite lookup_insert. by case_decide.
  - intros r w Hw. rewrite save_resource_unfold.
    destruct (EXTENSIONS !! from_buffer (resource_data r)) as [ext|]; [|done].
    cbn zeta. cbn [snd].
    destruct (bool_decide _); cbn [fs]; [done|].
    rewrite lookup_insert. by case_decide.
Qed.

(** *** What one event does *)

(** An event that goes well either leaves the world alone, or is the end
    of a resource whose payload is saved, or is the end of a note whose
    content is transformed with the dictionary of that moment and then
    saved. *)
Lemma step_ok_cases output_path ev l w l' w' :
  step output_path ev l w = (Ok l', w') ->
  (element_body (media_paths w) l ev = Continue l' /\ w' = w)
  \/ (exists text d,
        ev = End "resource" text /\ data l = Some d /\ l' = l
        /\ save_resource output_path (mkResource d) w = (Ok tt, w'))
  \/ (exists text t c markdown records,
        ev = End "note" text /\ title l = Some t /\ content l = Some c
        /\ handle (media_paths w) c = (Ok markdown, records) /\ l' = l
        /\ save_note output_path (mkNote t markdown) (snd (logging_records records w))
           = (Ok tt, w')).
Proof.
  destruct ev as [tag text|]; [|discriminate].
  destruct (String.eqb tag "resource") eqn:Eres.
  { apply String.eqb_eq in Eres as ->. rewrite step_resource, logging_nothing.
    destruct (data l) as [d|]; [|discriminate].
    destruct (save_resource output_path (mkResource d) w) as [[[]|e] w1] eqn:Hsave;
      [|discriminate].
    intros [= <- <-]. right. left. by exists text, d. }
  destruct (String.eqb tag "note") eqn:Enote.
  { apply String.eqb_eq in Enote as ->. unfold step. cbn [element_body String.eqb Ascii.eqb Bool.eqb].
    cbn [andb].
    destruct (title l) as [t|]; [|discriminate].
    destruct (content l) as [c|]; [|discriminate].
    destruct (handle (media_paths w) c) as [[markdown|e] records] eqn:Hh; [|discriminate].
    cbv beta iota delta [bind loop_body ret].
    destruct (logging_records records w) as [[[]|e0] w0] eqn:Hlog; [|discriminate].
    assert (Hw0 : w0 = snd (logging_records records w)) by (by rewrite Hlog).
    destruct (save_note output_path (mkNote t markdown) w0) as [[[]|e1] w1] eqn:Hsave;
      [|discriminate].
    intros [= <- <-]. right. right. exists text, t, c, markdown, records.
    by rewrite <- Hw0. }
  unfold step, element_body. rewrite Eres, Enote.
  destruct (String.eqb tag "title"); [intros [= <- <-]; by left|].
  destruct (String.eqb tag "content"); [intros [= <- <-]; by left|].
  destruct (String.eqb tag "data"); [|intros [= <- <-]; by left].
  destruct (Base64.b64decode (or_empty text)) as [d|e]; [|discriminate].
  intros [= <- <-]. by left.
Qed.

Lemma save_resource_ok output_path r w w' :
  save_resource output_path r w = (Ok tt, w') ->
  exists extension,
    EXTENSIONS !! from_buffer (resource_data r) = Some extension
    /\ media_paths w'
       = <[MD5.hexdigest (resource_data r) :=
             path_div relative_media_path (file_name_of (resource_data r) extension)]>
           (media_paths w)
    /\ is_Some (fs w' !! path_div (media_path output_path)
                             (file_name_of (resource_data r) extension))
    /\ (is_Some (fs w !! path_div (media_path output_path)
                             (file_name_of (resource_data r) extension)) ->
        fs w' = fs w /\ written w' = written w).
Proof.
  rewrite save_resource_unfold.
  destruct (EXTENSIONS !! from_buffer (resource_data r)) as [extension|]; [|discriminate].
  cbn zeta. intros [= <-]. exists extension. split; [done|].
  fold (file_name_of (resource_data r) extension).
  destruct (bool_decide (is_Some (fs w !! path_div (media_path output_path)
                                       (file_name_of (resource_data r) extension))))
    eqn:Hex; cbn [media_paths fs written].
  - apply bool_decide_eq_true in Hex. done.
  - apply bool_decide_eq_false in Hex. split; [done|]. split; [|done].
    rewrite lookup_insert_eq. eauto.
Qed.

Lemma save_note_media_paths output_path n w w' :
  save_note output_path n w = (Ok tt, w') -> media_paths w' = media_paths w.
Proof.
  rewrite save_note_unfold. cbn zeta.
  destruct (slugify (note_title n)); [|discriminate].
  destruct (is_dir _); [discriminate|]. by intros [= <-].
Qed.

Lemma step_media_paths output_path ev l w l' w' :
  step output_path ev l w = (Ok l', w') ->
  media_paths w' = media_paths w
  \/ exists text d extension,
      ev = End "resource" text /\ data l = Some d
      /\ EXTENSIONS !! from_buffer d = Some extension
      /\ media_paths w'
         = <[MD5.hexdigest d := path_div relative_media_path (file_name_of d extension)]>
             (media_paths w).
Proof.
  intros Hstep.
  apply step_ok_cases in Hstep
    as [[_ ->] | [(text & d & -> & Hd & _ & Hsave)
                 | (text & t & c & markdown & records & _ & _ & _ & _ & _ & Hsave)]].
  - by left.
  - right. apply save_resource_ok in Hsave as (extension & Hext & Hmp & _).
    by exists text, d, extension.
  - left. apply save_note_media_paths in Hsave. rewrite Hsave. by destruct w.
Qed.

(** *** The registry *)

Lemma yielded_snoc output_path l0 w0 pre ev d :
  yielded output_path l0 w0 pre d -> yielded output_path l0 w0 (pre ++ [ev]) d.
Proof.
  intros (pre1 & text & pre2 & l1 & w1 & -> & Hrun & Hd).
  exists pre1, text, (pre2 ++ [ev])%list, l1, w1.
  by rewrite <- app_assoc.
Qed.

(** Every entry of the dictionary that was not there at the start comes
    from a resource among the events: its key is the fingerprint of the
    payload, its path is the media directory and the fingerprint with the
    extension of the payload's MIME type. *)
Lemma registry_provenance output_path pre :
  forall l0 w0 l w,
    run output_path pre l0 w0 = (Ok l, w) ->
    forall h f,
      media_paths w !! h = Some f ->
      media_paths w0 !! h = Some f
      \/ exists d extension,
          yielded output_path l0 w0 pre d
          /\ MD5.hexdigest d = h
          /\ EXTENSIONS !! from_buffer d = Some extension
          /\ f = path_div relative_media_path (file_name_of d extension).
Proof.
  induction pre as [|ev pre IH] using rev_ind; intros l0 w0 l w Hrun h f Hf.
  - cbn in Hrun. injection Hrun as <- <-. by left.
  - apply run_app_ok in Hrun as (l1 & w1 & Hpre & Hev).
    cbn [run] in Hev. unfold bind in Hev.
    destruct (step output_path ev l1 w1) as [[l2|e] w2] eqn:Hstep; [|discriminate].
    cbn in Hev. injection Hev as <- <-.
    apply step_media_paths in Hstep
      as [Hsame | (text & d & extension & -> & Hd & Hext & Hmp)].
    + rewrite Hsame in Hf.
      destruct (IH _ _ _ _ Hpre h f Hf) as [Hold | (d & ext & Hy & Hrest)]; [by left|].
      right. exists d, ext. split; [by apply yielded_snoc | done].
    + rewrite Hmp in Hf.
      destruct (decide (MD5.hexdigest d = h)) as [<-|Hne].
      * rewrite lookup_insert_eq in Hf. injection Hf as <-.
        right. exists d, extension. split; [|done].
        exists pre, text, [], l1, w1. done.
      * rewrite lookup_insert_ne in Hf by done.
        destruct (IH _ _ _ _ Hpre h f Hf) as [Hold | (d' & ext & Hy & Hrest)]; [by left|].
        right. exists d', ext. split; [by apply yielded_snoc | done].
Qed.

(** A resource that was saved is in the dictionary from then on. *)
Lemma resource_recorded output_path text pre2 l1 w1 l w :
  run output_path (End "resource" text :: pre2) l1 w1 = (Ok l, w) ->
  exists d, data l1 = Some d /\ is_Some (media_paths w !! MD5.hexdigest d).
Proof.
  cbn [run]. unfold bind. rewrite step_resource, logging_nothing.
  destruct (data l1) as [d|]; [|discriminate].
  destruct (save_resource output_path (mkResource d) w1) as [[[]|e] w2] eqn:Hsave;
    [|discriminate].
  intros Hrest. exists d. split; [done|].
  apply save_resource_ok in Hsave as (extension & _ & Hmp & _).
  pose proof (run_preserves output_path _ pre2
                (stable_recorded output_path (MD5.hexdigest d)) l1 w2) as Hkeep.
  rewrite Hrest in Hkeep. apply Hkeep.
  rewrite Hmp. cbn. rewrite lookup_insert_eq. eauto.
Qed.

(** C1.  When the events before the end of a note went without an
    exception, the loop of [process_emex] reaches that note in the world
    those events left, its content is transformed with the dictionary of
    that world, and for every resource that ended before, the fingerprint
    of the payload the generator yielded is a key of that dictionary, so
    that a reference to it is resolved. *)
Theorem resources_registered_before_note output_path pre text rest l0 w0 l w :
  run output_path pre l0 w0 = (Ok l, w) ->
  for_loop output_path (S (List.length (pre ++ End "note" text :: rest)))
           l0 (pre ++ End "note" text :: rest) w0
  = for_loop output_path (S (List.length (End "note" text :: rest)))
             l (End "note" text :: rest) w
  /\ (forall t c,
        title l = Some t -> content l = Some c ->
        iterate_emex (media_paths w) l (End "note" text :: rest) =
        match handle (media_paths w) c with
        | (Ok markdown, records) => Yield (Some (mkNote t markdown)) None records l rest
        | (Raise e, records) => Raised e records
        end)
  /\ (forall pre1 text' pre2,
        pre = (pre1 ++ End "resource" text' :: pre2)%list ->
        exists l1 w1 d f,
          run output_path pre1 l0 w0 = (Ok l1, w1)
          /\ data l1 = Some d
          /\ media_paths w !! MD5.hexdigest d = Some f
          /\ forall attrs p,
              dict attrs !! "hash" = Some (PyStr (MD5.hexdigest d)) ->
              handle_starttag (media_paths w) "en-media" attrs p
              = (Ok tt,
                 Parser (o ("![" +:+ py_str (get (dict attrs) "title" (PyStr ""))
                            +:+ "](" +:+ path_str f +:+ ")") (generic p))
                        (plog p))).
Proof.
  intros Hrun. split; [by apply for_loop_app|]. split.
  - intros t c Ht Hc. by apply iterate_emex_note.
  - intros pre1 text' pre2 ->.
    apply run_app_ok in Hrun as (l1 & w1 & Hpre1 & Hrest).
    destruct (resource_recorded _ _ _ _ _ _ _ Hrest) as (d & Hd & [f Hf]).
    exists l1, w1, d, f. repeat split; try done.
    intros attrs p Hhash. rewrite handle_starttag_en_media, Hhash. cbn.
    by rewrite Hf.
Qed.

(** C5.  In a run that started with an empty dictionary, an
    embedded-media reference whose [hash] is a key of the dictionary and
    whose [title] attribute is absent or has a value makes the
    transformer emit [![title](media/hash.extension)]: the title is the
    value of the [title] attribute, or empty without the attribute, and
    the extension is the one of the MIME type detected for the payload
    of a resource among the events, of which [hash] is the fingerprint. *)
Theorem en_media_link output_path pre l0 w0 l w attrs h f p :
  media_paths w0 = ∅ ->
  run output_path pre l0 w0 = (Ok l, w) ->
  dict attrs !! "hash" = Some (PyStr h) ->
  media_paths w !! h = Some f ->
  exists d extension,
    yielded output_path l0 w0 pre d
    /\ MD5.hexdigest d = h
    /\ EXTENSIONS !! from_buffer d = Some extension
    /\ path_str f = "media/" +:+ h +:+ "." +:+ extension
    /\ ("title" ∉ attrs.*1 ->
        handle_starttag (media_paths w) "en-media" attrs p
        = (Ok tt,
           Parser (o ("![](" +:+ ("media/" +:+ h +:+ "." +:+ extension) +:+ ")")
                     (generic p))
                  (plog p)))
    /\ (forall t, dict attrs !! "title" = Some (PyStr t) ->
        handle_starttag (media_paths w) "en-media" attrs p
        = (Ok tt,
           Parser (o ("![" +:+ t +:+ "]("
                      +:+ ("media/" +:+ h +:+ "." +:+ extension) +:+ ")")
                     (generic p))
                  (plog p))).
Proof.
  intros Hempty Hrun Hhash Hf.
  destruct (registry_provenance _ _ _ _ _ _ Hrun h f Hf)
    as [Hold | (d & extension & Hy & Hh & Hext & ->)].
  { rewrite Hempty in Hold. by rewrite lookup_empty in Hold. }
  subst h. exists d, extension. unfold file_name_of.
  split; [done|]. split; [done|]. split; [done|].
  split; [reflexivity|].
  assert (Hlink : handle_starttag (media_paths w) "en-media" attrs p
                  = (Ok tt,
                     Parser (o ("![" +:+ py_str (get (dict attrs) "title" (PyStr ""))
                                +:+ "]("
                                +:+ ("media/" +:+ MD5.hexdigest d +:+ "." +:+ extension)
                                +:+ ")")
                               (generic p))
                            (plog p))).
  { rewrite handle_starttag_en_media, Hhash. cbn [media_paths_getitem].
    rewrite Hf. reflexivity. }
  split.
  - intros Habs. apply dict_lookup_None in Habs.
    rewrite Hlink. unfold get. rewrite Habs. reflexivity.
  - intros t Ht. rewrite Hlink. unfold get. rewrite Ht. reflexivity.
Qed.

(** *** Registration *)

(** C4.  A payload whose detected MIME type is not a key of
    [EXTENSIONS] makes the registration raise [KeyError] for that type
    and leaves the world as it was: no path is recorded for its
    fingerprint and no file is written.  The run of [process_emex] ends
    there, in that world. *)
Theorem unsupported_media_type output_path d w :
  EXTENSIONS !! from_buffer d = None ->
  save_resource output_path (mkResource d) w
  = (Raise (KeyError (PyStr (from_buffer d))), w)
  /\ forall pre text rest l0 w0 l,
      run output_path pre l0 w0 = (Ok l, w) ->
      data l = Some d ->
      for_loop output_path (S (List.length (pre ++ End "resource" text :: rest)))
               l0 (pre ++ End "resource" text :: rest) w0
      = Some (Raise (KeyError (PyStr (from_buffer d))), w).
Proof.
  intros Hext.
  assert (Hsave : save_resource output_path (mkResource d) w
                  = (Raise (KeyError (PyStr (from_buffer d))), w)).
  { rewrite save_resource_unfold. cbn [resource_data]. by rewrite Hext. }
  split; [exact Hsave|].
  intros pre text rest l0 w0 l Hrun Hd.
  rewrite (for_loop_app _ _ _ _ _ _ _ Hrun), for_loop_run by lia.
  cbn [run]. unfold bind.
  by rewrite step_resource, logging_nothing, Hd, Hsave.
Qed.

(** *** Payloads *)

(** C7, as the code has it.  A [data] element without text or with the
    empty text gives the empty payload, and so does a text of ASCII
    characters none of which is of the Base64 alphabet.  A text of ASCII
    characters without [=] whose alphabet characters do not fill whole
    groups of four makes the decoding raise [binascii.Error]: the
    generator raises with it, the loop of [process_emex] ends with it in
    the world the events before the element left, and so does
    [process_emex]. *)
Theorem data_text_decoding output_path (registry : gmap string path) l :
  element_body registry l (End "data" PyNone)
  = Continue (Locals (title l) (content l) (Some []))
  /\ element_body registry l (End "data" (PyStr ""))
     = Continue (Locals (title l) (content l) (Some []))
  /\ (forall s,
        forallb Base64.is_ascii (list_ascii_of_string s) = true ->
        Base64.digits (list_ascii_of_string s) = 0%nat ->
        element_body registry l (End "data" (PyStr s))
        = Continue (Locals (title l) (content l) (Some [])))
  /\ (forall s,
        forallb Base64.is_ascii (list_ascii_of_string s) = true ->
        existsb Base64.is_pad (list_ascii_of_string s) = false ->
        (Base64.digits (list_ascii_of_string s) mod 4)%nat <> 0%nat ->
        exists msg,
          Base64.b64decode s = Raise (BinasciiError msg)
          /\ (forall rest,
                iterate_emex registry l (End "data" (PyStr s) :: rest)
                = Raised (BinasciiError msg) [])
          /\ (forall pre rest l0 w0 l1 w,
                run output_path pre l0 w0 = (Ok l1, w) ->
                for_loop output_path
                         (S (List.length (pre ++ End "data" (PyStr s) :: rest)))
                         l0 (pre ++ End "data" (PyStr s) :: rest) w0
                = Some (Raise (BinasciiError msg), w))
          /\ (forall pre rest files w,
                process_emex output_path pre files = Some (Ok tt, w) ->
                process_emex output_path (pre ++ End "data" (PyStr s) :: rest) files
                = Some (Raise (BinasciiError msg), w))).
Proof.
  assert (Hs : forall s, or_empty (PyStr s) = s).
  { intros s. unfold or_empty. cbn. by destruct (String.eqb_spec s "") as [->|]. }
  split; [reflexivity|]. split; [reflexivity|]. split.
  { intros s Hascii Hd. cbn. specialize (Hs s). cbn in Hs.
    by rewrite Hs, (Base64Facts.b64decode_no_digit s Hascii Hd). }
  intros s Hascii Hpad Hopen.
  destruct (Base64Facts.b64decode_open_group s Hascii Hpad Hopen) as [msg Hmsg].
  exists msg. split; [exact Hmsg|].
  assert (Hbody : forall mp l', element_body mp l' (End "data" (PyStr s))
                                = RaiseHere (BinasciiError msg) []).
  { intros mp l'. cbn. specialize (Hs s). cbn in Hs. by rewrite Hs, Hmsg. }
  assert (Hloop : forall pre rest l0 w0 l1 w,
             run output_path pre l0 w0 = (Ok l1, w) ->
             for_loop output_path
                      (S (List.length (pre ++ End "data" (PyStr s) :: rest)))
                      l0 (pre ++ End "data" (PyStr s) :: rest) w0
             = Some (Raise (BinasciiError msg), w)).
  { intros pre rest l0 w0 l1 w Hrun.
    rewrite (for_loop_app _ _ _ _ _ _ _ Hrun), for_loop_run by lia.
    cbn [run]. unfold bind.
    by rewrite (step_raise_here _ _ _ _ (BinasciiError msg)). }
  split; [|split].
  - intros rest. cbn [iterate_emex]. by rewrite Hbody.
  - exact Hloop.
  - intros pre rest files w. unfold process_emex.
    destruct ((logging INFO "Creating target directories…" ;;
               mkdir output_path ;; mkdir (media_path output_path))
                (World ∅ files [] [])) as [[[]|e] w1]; [|discriminate].
    rewrite for_loop_run by lia.
    destruct (run output_path pre no_locals w1) as [[l1|e] w'] eqn:Hrun;
      [|discriminate].
    intros [= <-]. by apply (Hloop pre rest no_locals w1 l1).
Qed.

(** C8.  Whether a payload can be registered, and the relative path
    recorded for it, depend on the payload alone: not on the world the
    registration starts in, nor on the output directory. *)
Theorem registration_deterministic output_path output_path' d w w' :
  is_ok (fst (save_resource output_path (mkResource d) w))
  = is_ok (fst (save_resource output_path' (mkResource d) w'))
  /\ forall w1 w1',
      save_resource output_path (mkResource d) w = (Ok tt, w1) ->
      save_resource output_path' (mkResource d) w' = (Ok tt, w1') ->
      exists extension,
        EXTENSIONS !! from_buffer d = Some extension
        /\ media_paths w1 !! MD5.hexdigest d
           = Some ["media"; MD5.hexdigest d +:+ "." +:+ extension]
        /\ media_paths w1' !! MD5.hexdigest d
           = Some ["media"; MD5.hexdigest d +:+ "." +:+ extension].
Proof.
  split.
  - rewrite !save_resource_unfold. cbn [resource_data].
    by destruct (EXTENSIONS !! from_buffer d).
  - intros w1 w1' Hsave Hsave'.
    apply save_resource_ok in Hsave as (extension & Hext & Hmp & _).
    apply save_resource_ok in Hsave' as (extension' & Hext' & Hmp' & _).
    cbn [resource_data] in *. rewrite Hext in Hext'. injection Hext' as <-.
    exists extension. split; [done|].
    rewrite Hmp, Hmp', !lookup_insert_eq. done.
Qed.

(** *** Files are written once *)

Lemma note_path_not_media output_path x name :
  path_div output_path x <> path_div (media_path output_path) name.
Proof.
  unfold path_div, media_path. intros Heq.
  apply (f_equal (@List.length string)) in Heq.
  rewrite !length_app in Heq. cbn in Heq. lia.
Qed.

Lemma no_write_yet output_path name w :
  writes_tracked w ->
  fs w !! path_div (media_path output_path) name = None ->
  media_writes output_path name w = [].
Proof.
  intros Htr Hnone. unfold media_writes.
  destruct (filter _ (written w)) as [|[f b] tl] eqn:Hfil; [done|].
  assert (Hin : (f, b) ∈ filter (fun e : path * bytes =>
                    e.1 = path_div (media_path output_path) name) (written w)).
  { rewrite Hfil. by left. }
  apply list_elem_of_filter in Hin as [Hf Hin]. cbn in Hf. subst f.
  apply Htr in Hin. rewrite Hnone in Hin. by destruct Hin.
Qed.

Lemma stable_writes output_path :
  stable output_path (fun w => writes_tracked w /\ media_written_once output_path w).
Proof.
  split; [|split].
  - by intros records [].
  - intros n w [Htr Honce]. rewrite save_note_unfold. cbn zeta.
    destruct (slugify (note_title n)) as [slug|e]; [|done].
    destruct (is_dir _) eqn:Hdir; [done|].
    cbn [snd]. split.
    + intros f b Hin. cbn [written fs] in *.
      apply elem_of_app in Hin as [Hin | Hin].
      * rewrite lookup_insert. case_decide; [eauto | by apply (Htr f b)].
      * apply list_elem_of_singleton in Hin. injection Hin as -> ->.
        rewrite lookup_insert_eq. eauto.
    + intros name. unfold media_writes. cbn [written].
      rewrite filter_app, filter_cons_False, filter_nil, app_nil_r.
      * apply Honce.
      * cbn. apply note_path_not_media.
  - intros r w [Htr Honce]. rewrite save_resource_unfold.
    destruct (EXTENSIONS !! from_buffer (resource_data r)) as [ext|]; [|done].
    cbn zeta. cbn [snd].
    destruct (bool_decide _) eqn:Hex; [done|].
    apply bool_decide_eq_false in Hex.
    assert (Hnone : fs w !! path_div (media_path output_path)
                               (MD5.hexdigest (resource_data r) +:+ extsep +:+ ext) = None).
    { destruct (fs w !! _) eqn:E; [|done]. exfalso. apply Hex. eauto. }
    split.
    + intros f b Hin. cbn [written fs] in *.
      apply elem_of_app in Hin as [Hin | Hin].
      * rewrite lookup_insert. case_decide; [eauto | by apply (Htr f b)].
      * apply list_elem_of_singleton in Hin. injection Hin as -> ->.
        rewrite lookup_insert_eq. eauto.
    + intros name. unfold media_writes. cbn [written].
      rewrite filter_app, length_app.
      destruct (decide (path_div (media_path output_path)
                          (MD5.hexdigest (resource_data r) +:+ extsep +:+ ext)
                        = path_div (media_path output_path) name)) as [Heq|Hne].
      * rewrite filter_cons_True by done. rewrite filter_nil.
        rewrite <- Heq.
        fold (media_writes output_path
                (MD5.hexdigest (resource_data r) +:+ extsep +:+ ext) w).
        rewrite (no_write_yet _ _ _ Htr Hnone). cbn. lia.
      * rewrite filter_cons_False by done. rewrite filter_nil. cbn.
        pose proof (Honce name) as Hn. unfold media_writes in Hn. lia.
Qed.

Lemma mkdir_from_written made todo w :
  written (snd (mkdir_from made todo w)) = written w.
Proof.
  revert made w. induction todo as [|c todo IH]; intros made w; [done|].
  cbn [mkdir_from]. unfold bind, mkdir1.
  destruct (fs w !! (made ++ [c])%list) as [[|contents]|]; cbn [snd]; try done.
  - by rewrite IH.
  - by rewrite IH.
Qed.

Lemma process_emex_run output_path emex_file files x w :
  process_emex output_path emex_file files = Some (x, w) ->
  written w = []
  \/ exists l0 w1,
      written w1 = [] /\ w = snd (run output_path emex_file l0 w1).
Proof.
  unfold process_emex. unfold bind at 1. unfold logging at 1, modify. cbn [media_paths fs log written].
  unfold bind.
  set (wa := World ∅ files ([] ++ [(INFO, "Creating target directories…")]) []).
  pose proof (mkdir_from_written [] output_path wa) as Ha.
  fold (mkdir output_path) in Ha.
  destruct (mkdir output_path wa) as [[[]|e] wb].
  2: { intros [= <- <-]. left. exact Ha. }
  pose proof (mkdir_from_written [] (media_path output_path) wb) as Hb.
  fold (mkdir (media_path output_path)) in Hb.
  destruct (mkdir (media_path output_path) wb) as [[[]|e] wc].
  2: { intros [= <- <-]. left. cbn in *. congruence. }
  rewrite for_loop_run by lia. intros [= Hout]. right.
  exists no_locals, wc. split; [cbn in *; congruence|].
  destruct (run output_path emex_file no_locals wc) as [[?|?] ?];
    cbn in Hout; by injection Hout as _ <-.
Qed.

(** [process_emex] always comes to an end: the fuel it gives its loop is
    enough. *)
Lemma process_emex_total output_path emex_file files :
  exists x w, process_emex output_path emex_file files = Some (x, w).
Proof.
  unfold process_emex.
  destruct ((logging INFO "Creating target directories…" ;;
             mkdir output_path ;; mkdir (media_path output_path))
              (World ∅ files [] [])) as [[[]|e] w1]; [|by eauto].
  rewrite for_loop_run by lia.
  destruct (outcome (run output_path emex_file no_locals w1)) as [x w]. eauto.
Qed.

(** C2.  A payload registered a second time, whatever the run did in
    between, is recorded under the same relative path as the first time,
    and the second registration writes no file: the files and the list of
    writes are as they were.  A run of [process_emex] comes to an end, and
    in it no file of the media directory is written more than once. *)
Theorem registering_twice output_path :
  (forall d w w1 emex_file l l2 w2,
      save_resource output_path (mkResource d) w = (Ok tt, w1) ->
      run output_path emex_file l w1 = (Ok l2, w2) ->
      exists f w3,
        media_paths w1 !! MD5.hexdigest d = Some f
        /\ save_resource output_path (mkResource d) w2 = (Ok tt, w3)
        /\ media_paths w3 !! MD5.hexdigest d = Some f
        /\ fs w3 = fs w2
        /\ written w3 = written w2)
  /\ (forall emex_file files,
         exists x w,
           process_emex output_path emex_file files = Some (x, w)
           /\ forall name, (List.length (media_writes output_path name w) <= 1)%nat).
Proof.
  split.
  - intros d w w1 emex_file l l2 w2 Hfirst Hrun.
    apply save_resource_ok in Hfirst as (extension & Hext & Hmp & Hfile & _).
    cbn [resource_data] in *.
    pose proof (run_preserves output_path _ emex_file
                  (stable_file output_path _) l w1 Hfile) as Hfile2.
    rewrite Hrun in Hfile2. cbn [snd] in Hfile2.
    destruct (save_resource output_path (mkResource d) w2) as [[[]|e] w3] eqn:Hsecond.
    + exists (path_div relative_media_path (file_name_of d extension)), w3.
      apply save_resource_ok in Hsecond as (extension' & Hext' & Hmp' & _ & Hkeep).
      cbn [resource_data] in *. rewrite Hext in Hext'. injection Hext' as <-.
      destruct (Hkeep Hfile2) as [Hfs Hwr].
      rewrite Hmp, Hmp', !lookup_insert_eq. done.
    + rewrite save_resource_unfold in Hsecond. cbn [resource_data] in Hsecond.
      rewrite Hext in Hsecond. discriminate.
  - intros emex_file files.
    destruct (process_emex_total output_path emex_file files) as (x & w & Hrun).
    exists x, w. split; [exact Hrun|]. intros name.
    assert (Hstart : forall w1, written w1 = [] ->
               writes_tracked w1 /\ media_written_once output_path w1).
    { intros w1 Hw1. split.
      - intros f b Hin. rewrite Hw1 in Hin. by apply elem_of_nil in Hin.
      - intros name'. unfold media_writes. rewrite Hw1. cbn. lia. }
    apply process_emex_run in Hrun as [Hnil | (l0 & w1 & Hnil & ->)].
    + by apply Hstart.
    + by apply (run_preserves output_path _ emex_file (stable_writes output_path) l0 w1),
           Hstart.
Qed.

End PipelineProperties.

(** ** The theorems on the small instance *)

Lemma before_note_runs :
  run (H := Plain.collaborators) (H0 := Plain.html2text) ["out"] before_note
      no_locals empty_world
  = (Ok locals_after_resource, after_resource).
Proof. vm_compute. reflexivity. Defined.

(** The whole scenario: the note is written with the link to the file
    that was saved for its resource. *)
Example groceries_converted :
  exists w,
    process_emex (H := Plain.collaborators) (H0 := Plain.html2text) ["out"]
                 Plain.groceries ∅ = Some (Ok tt, w)
    /\ fs w !! ["out"; "Groceries.md"]
       = Some (File (list_byte_of_string
                       "[x]Milk ![pic](media/d41d8cd98f00b204e9800998ecf8427e.txt)"))
    /\ fs w !! ["out"; "media"; "d41d8cd98f00b204e9800998ecf8427e.txt"] = Some (File [])
    /\ List.map fst (written w)
       = [ ["out"; "media"; "d41d8cd98f00b204e9800998ecf8427e.txt"];
           ["out"; "Groceries.md"] ].
Proof.
  eexists. split; [vm_compute; reflexivity|]. vm_compute. auto.
Qed.

Lemma resources_registered_before_note_witness :
  exists d f, media_paths after_resource !! MD5.hexdigest d = Some f.
Proof.
  destruct (resources_registered_before_note (H := Plain.collaborators)
              (H0 := Plain.html2text) ["out"] before_note PyNone [] no_locals
              empty_world locals_after_resource after_resource before_note_runs)
    as (_ & _ & Hres).
  destruct (Hres [ End "title" (PyStr "Groceries");
                   End "content" (PyStr
                     "<en-note><en-todo checked=true/>Milk <en-media hash=d41d8cd98f00b204e9800998ecf8427e title=pic/></en-note>");
                   End "data" PyNone ] PyNone [] eq_refl)
    as (l1 & w1 & d & f & _ & _ & Hf & _).
  exists d, f. exact Hf.
Defined.

Lemma registering_twice_witness :
  exists f w3,
    media_paths registered_once !! MD5.hexdigest [] = Some f
    /\ save_resource (H := Plain.collaborators) ["out"] (mkResource [])
                     registered_then_run = (Ok tt, w3)
    /\ media_paths w3 !! MD5.hexdigest [] = Some f
    /\ fs w3 = fs registered_then_run
    /\ written w3 = written registered_then_run.
Proof.
  destruct (registering_twice (H := Plain.collaborators) (H0 := Plain.html2text) ["out"])
    as [Htwice _].
  apply (Htwice [] empty_world registered_once before_note no_locals
                locals_after_resource registered_then_run).
  - vm_compute. reflexivity.
  - vm_compute. reflexivity.
Defined.

Lemma en_media_unknown_hash_witness :
  handle_starttag (H := Plain.html2text) one_entry "en-media"
                  [("hash", PyStr "d41d8cd98f00b204e9800998ecf8427e")] fresh_parser
  = (Raise (KeyError (PyStr "d41d8cd98f00b204e9800998ecf8427e")), fresh_parser).
Proof.
  destruct (en_media_unknown_hash (H := Plain.html2text) one_entry
              [("hash", PyStr "d41d8cd98f00b204e9800998ecf8427e")]
              (PyStr "d41d8cd98f00b204e9800998ecf8427e")) as [Hraise _].
  - vm_compute. reflexivity.
  - intros h [= <-]. vm_compute. reflexivity.
  - apply Hraise.
Defined.

Lemma unsupported_media_type_witness :
  save_resource (H := Plain.collaborators) ["out"]
                (mkResource (list_byte_of_string "hello")) empty_world
  = (Raise (KeyError (PyStr "text/plain")), empty_world).
Proof.
  destruct (unsupported_media_type (H := Plain.collaborators) (H0 := Plain.html2text)
              ["out"] (list_byte_of_string "hello") empty_world) as [Hsave _].
  - vm_compute. reflexivity.
  - exact Hsave.
Defined.

Lemma en_media_link_witness :
  exists d extension,
    MD5.hexdigest d = "d41d8cd98f00b204e9800998ecf8427e"
    /\ EXTENSIONS !! Plain.sniff d = Some extension
    /\ handle_starttag (H := Plain.html2text) (media_paths after_resource) "en-media"
         [("hash", PyStr "d41d8cd98f00b204e9800998ecf8427e"); ("title", PyStr "pic")]
         fresh_parser
       = (Ok tt,
          Parser (H := Plain.html2text)
            ("![" +:+ "pic" +:+ "]("
             +:+ ("media/" +:+ "d41d8cd98f00b204e9800998ecf8427e" +:+ "." +:+ extension)
             +:+ ")") []).
Proof.
  destruct (en_media_link (H := Plain.collaborators) (H0 := Plain.html2text) ["out"]
              before_note no_locals empty_world locals_after_resource after_resource
              [("hash", PyStr "d41d8cd98f00b204e9800998ecf8427e"); ("title", PyStr "pic")]
              "d41d8cd98f00b204e9800998ecf8427e"
              ["media"; "d41d8cd98f00b204e9800998ecf8427e.txt"] fresh_parser)
    as (d & extension & _ & Hd & Hext & _ & _ & Htitle).
  - reflexivity.
  - exact before_note_runs.
  - vm_compute. reflexivity.
  - vm_compute. reflexivity.
  - exists d, extension. split; [exact Hd|]. split; [exact Hext|].
    rewrite (Htitle "pic"); [reflexivity|].
    vm_compute. reflexivity.
Defined.

(** C5 as the claim has it fails: a [title] attribute without a value, as
    in [<en-media hash=... title>], reaches [handle_starttag] as
    [('title', None)], [attrs_dict.get('title', '')] is [None], and the
    f-string renders it as the text [None].  The title of the link is then
    neither empty nor a value of the attribute. *)
Lemma en_media_title_without_value_counterexample :
  run (H := Plain.collaborators) (H0 := Plain.html2text) ["out"] before_note
      no_locals empty_world
  = (Ok locals_after_resource, after_resource)
  /\ media_paths after_resource !! "d41d8cd98f00b204e9800998ecf8427e"
     = Some ["media"; "d41d8cd98f00b204e9800998ecf8427e.txt"]
  /\ handle_starttag (H := Plain.html2text) (media_paths after_resource) "en-media"
       [("hash", PyStr "d41d8cd98f00b204e9800998ecf8427e"); ("title", PyNone)]
       fresh_parser
     = (Ok tt,
        Parser (H := Plain.html2text)
               "![None](media/d41d8cd98f00b204e9800998ecf8427e.txt)" [])
  /\ handle_starttag (H := Plain.html2text) (media_paths after_resource) "en-media"
       [("hash", PyStr "d41d8cd98f00b204e9800998ecf8427e"); ("title", PyNone)]
       fresh_parser
     <> (Ok tt,
         Parser (H := Plain.html2text)
                "![](media/d41d8cd98f00b204e9800998ecf8427e.txt)" []).
Proof.
  split; [vm_compute; reflexivity|]. split; [vm_compute; reflexivity|].
  split; [vm_compute; reflexivity|]. vm_compute. discriminate.
Qed.

Lemma en_todo_checkbox_witness :
  feed (H := Plain.html2text) ∅
       [StartTag "en-note" []; StartTag "en-todo" [("checked", PyStr "true")];
        Other "Milk"] fresh_parser
  = (Ok tt, Parser (H := Plain.html2text) "[x]Milk" []).
Proof.
  destruct (en_todo_checkbox (H := Plain.html2text) ∅ [("checked", PyStr "true")]
              [StartTag "en-note" []] [Other "Milk"] fresh_parser fresh_parser eq_refl)
    as [Hchecked _].
  refine (eq_trans (Hchecked "true" _ _) _);
    [discriminate | vm_compute; reflexivity | reflexivity].
Defined.

(** C6 as the claim has it fails: a [checked] attribute that is present
    with the empty value gives [[ ]], not [[x]]. *)
Lemma en_todo_checked_empty_counterexample :
  "checked" ∈ [("checked", PyStr "")].*1
  /\ handle_starttag (H := Plain.html2text) ∅ "en-todo" [("checked", PyStr "")]
                     fresh_parser
     = (Ok tt, Parser (H := Plain.html2text) "[ ]" [])
  /\ handle_starttag (H := Plain.html2text) ∅ "en-todo" [("checked", PyStr "")]
                     fresh_parser
     <> (Ok tt, Parser (H := Plain.html2text) "[x]" []).
Proof.
  split; [by left|]. split; [vm_compute; reflexivity|].
  vm_compute. discriminate.
Qed.

Lemma data_text_decoding_witness :
  element_body (H0 := Plain.html2text) ∅ no_locals (End "data" (PyStr "===="))
  = Continue (Locals None None (Some []))
  /\ exists msg w,
      Base64.b64decode "abc" = Raise (BinasciiError msg)
      /\ process_emex (H := Plain.collaborators) (H0 := Plain.html2text) ["out"]
                      [End "title" (PyStr "Groceries")] ∅
         = Some (Ok tt, w)
      /\ process_emex (H := Plain.collaborators) (H0 := Plain.html2text) ["out"]
                      ([End "title" (PyStr "Groceries")]
                         ++ End "data" (PyStr "abc") :: [End "resource" PyNone])%list ∅
         = Some (Raise (BinasciiError msg), w).
Proof.
  destruct (data_text_decoding (H := Plain.collaborators) (H0 := Plain.html2text)
              ["out"] ∅ no_locals) as (_ & _ & Hnone & Hopen).
  split; [apply (Hnone "===="); reflexivity|].
  destruct (Hopen "abc") as (msg & Hmsg & _ & _ & Hends).
  - reflexivity.
  - reflexivity.
  - vm_compute. discriminate.
  - exists msg. eexists. split; [exact Hmsg|]. split; [|apply Hends]; reflexivity.
Defined.

(** C7 as the claim has it fails: the text [abc] is not decoded to the
    empty payload, the decoding raises and [process_emex] ends with the
    exception. *)
Lemma data_malformed_counterexample :
  Base64.b64decode (or_empty (PyStr "abc")) = Raise (BinasciiError "Incorrect padding")
  /\ Base64.b64decode (or_empty (PyStr "abc")) <> Ok []
  /\ fst <$> process_emex (H := Plain.collaborators) (H0 := Plain.html2text) ["out"]
                          [End "data" (PyStr "abc"); End "resource" PyNone] ∅
     = Some (Raise (BinasciiError "Incorrect padding")).
Proof.
  split; [vm_compute; reflexivity|]. split; [vm_compute; discriminate|].
  vm_compute. reflexivity.
Qed.

Lemma registration_deterministic_witness :
  exists extension,
    EXTENSIONS !! Plain.sniff [] = Some extension
    /\ media_paths registered_once !! MD5.hexdigest []
       = Some ["media"; MD5.hexdigest [] +:+ "." +:+ extension]
    /\ media_paths (snd (save_resource (H := Plain.collaborators) ["elsewhere"]
                           (mkResource []) after_resource)) !! MD5.hexdigest []
       = Some ["media"; MD5.hexdigest [] +:+ "." +:+ extension].
Proof.
  destruct (registration_deterministic (H := Plain.collaborators)
              ["out"] ["elsewhere"] [] empty_world after_resource) as [_ Hsame].
  apply (Hsame registered_once
               (snd (save_resource (H := Plain.collaborators) ["elsewhere"]
                       (mkResource []) after_resource))).
  - vm_compute. reflexivity.
  - vm_compute. reflexivity.
Defined.

Lemma en_crypt_skipped_witness :
  feed (H := Plain.html2text) ∅
       [StartTag "en-note" []; StartTag "en-crypt" []; Other "c2VjcmV0";
        EndTag "en-crypt"; Other " after"] fresh_parser
  = (Ok tt,
     Parser (H := Plain.html2text) "c2VjcmV0 after"
            [(ERROR, "<en-crypt> is not implemented.")]).
Proof.
  destruct (en_crypt_skipped (H := Plain.html2text) ∅ [] [StartTag "en-note" []]
              [Other "c2VjcmV0"; EndTag "en-crypt"; Other " after"]
              fresh_parser fresh_parser eq_refl) as [_ Hfeed].
  exact (eq_trans Hfeed eq_refl).
Defined.

Lemma en_media_without_hash_witness :
  handle_starttag (H := Plain.html2text) one_entry "en-media" [("title", PyStr "pic")]
                  fresh_parser
  = (Raise (KeyError (PyStr "hash")), fresh_parser).
Proof.
  destruct (en_media_without_hash (H := Plain.html2text) one_entry
              [("title", PyStr "pic")]) as [Hraise _].
  - apply not_elem_of_cons. split; [discriminate | apply not_elem_of_nil].
  - apply Hraise.
Defined.

(** * Further properties *)

(** ** The transformer and the tags of its own *)

Section TransformerFrame.

Context `{HTML2Text}.

Implicit Types (media_paths : gmap string path) (p : parser)
         (cbs : list (callback other)).

Lemma skipped_pass media_paths (cb : callback other) p :
  skipped cb = true -> callback_handle media_paths cb p = (Ok tt, p).
Proof.
  destruct cb as [tag attrs|tag|message|x]; cbn [skipped]; try discriminate.
  - intros Htag. cbn [callback_handle]. unfold handle_starttag. by rewrite Htag.
  - intros Htag. cbn [callback_handle]. unfold handle_endtag. by rewrite Htag.
Qed.

(** X1.  The wrapper tag and the end tags of the four tags of [ContentParser]
    contribute nothing: a content is transformed as the same content
    without them, whether that ends well or raises. *)
Theorem skipped_tags_transparent media_paths cbs p :
  feed media_paths (without_skipped cbs) p = feed media_paths cbs p.
Proof.
  revert p. induction cbs as [|cb cbs IH]; intros p; [reflexivity|].
  cbn [without_skipped]. destruct (skipped cb) eqn:Hcb.
  - cbn [feed]. unfold bind. rewrite (skipped_pass _ _ _ Hcb). apply IH.
  - cbn [feed]. unfold bind.
    destruct (callback_handle media_paths cb p) as [[[]|e] p']; [apply IH | reflexivity].
Qed.

Lemma callback_handle_registry media_paths media_paths' (cb : callback other) p :
  is_en_media cb = false ->
  callback_handle media_paths cb p = callback_handle media_paths' cb p.
Proof.
  destruct cb as [tag attrs|tag|message|x]; try reflexivity.
  cbn [is_en_media callback_handle]. intros Htag. unfold handle_starttag.
  rewrite Htag. reflexivity.
Qed.

(** X2.  A content without an embedded-media reference is transformed in the
    same way whatever the registry holds: to the same text, with the same
    records logged, or to the same exception. *)
Theorem registry_read_only_by_en_media media_paths media_paths' cbs :
  existsb is_en_media cbs = false ->
  (forall p, feed media_paths cbs p = feed media_paths' cbs p)
  /\ (forall c, HTMLParser_feed c = cbs -> handle media_paths c = handle media_paths' c).
Proof.
  intros Hnone.
  assert (Hfeed : forall p, feed media_paths cbs p = feed media_paths' cbs p).
  { induction cbs as [|cb cbs IH]; intros p; [reflexivity|].
    cbn in Hnone. apply orb_false_iff in Hnone as [Hcb Hrest].
    cbn [feed]. unfold bind.
    rewrite (callback_handle_registry media_paths media_paths' cb p Hcb).
    destruct (callback_handle media_paths' cb p) as [[[]|e] p']; [by apply IH | reflexivity]. }
  split; [exact Hfeed|].
  intros c Hc. unfold handle. by rewrite Hc, Hfeed.
Qed.

End TransformerFrame.

Lemma registry_read_only_by_en_media_witness :
  handle (H := Plain.html2text) one_entry (PyStr "<en-note><en-todo/>Milk</en-note>")
  = handle (H := Plain.html2text) ∅ (PyStr "<en-note><en-todo/>Milk</en-note>").
Proof.
  destruct (registry_read_only_by_en_media (H := Plain.html2text) one_entry ∅
              (HTMLParser_feed (HTML2Text := Plain.html2text)
                 (PyStr "<en-note><en-todo/>Milk</en-note>"))) as [_ Hhandle].
  - vm_compute. reflexivity.
  - apply Hhandle. reflexivity.
Defined.

(** ** The reader and its local variables *)

Section ReaderProperties.

Context `{Collaborators} `{HTML2Text}.

Implicit Types (output_path : path) (w : world) (l : locals)
         (ev : parse_event) (emex_file pre rest : list parse_event).

Lemma element_body_other (media_paths : gmap string path) l ev :
  surfaces ev = false -> element_body media_paths l ev = Continue l.
Proof.
  destruct ev as [tag text|]; [|discriminate].
  cbn [surfaces existsb]. intros Htag.
  repeat (apply orb_false_iff in Htag as [? Htag]).
  unfold element_body. by repeat match goal with Heq : String.eqb _ _ = false |- _ =>
                                      rewrite Heq; clear Heq end.
Qed.

Lemma run_surfacing output_path emex_file l w :
  run output_path (surfacing emex_file) l w = run output_path emex_file l w.
Proof.
  revert l w. induction emex_file as [|ev rest IH]; intros l w; [reflexivity|].
  cbn [surfacing]. destruct (surfaces ev) eqn:Hev.
  - cbn [run]. unfold bind.
    destruct (step output_path ev l w) as [[l1|e] w1]; [apply IH | reflexivity].
  - cbn [run]. unfold bind, step. rewrite (element_body_other _ _ _ Hev). apply IH.
Qed.

(** X5.  The end events of elements other than [title], [content], [data],
    [resource] and [note] do not count: on the events that [iterparse]
    delivers, [process_emex] ends as it does on the same events with
    those left out, the others being as they were, with the same outcome,
    files, registry and log. *)
Theorem other_elements_ignored output_path emex_file files :
  process_emex output_path (surfacing emex_file) files
  = process_emex output_path emex_file files.
Proof.
  unfold process_emex.
  destruct ((logging INFO "Creating target directories…" ;;
             mkdir output_path ;; mkdir (media_path output_path))
              (World ∅ files [] [])) as [[[]|e] w1]; [|reflexivity].
  rewrite !for_loop_run by lia. by rewrite run_surfacing.
Qed.

(** What the body does at an element that is neither a resource nor a
    note: it goes on, or raises without a record. *)
Lemma element_body_quiet (media_paths : gmap string path) l ev :
  has_tag "resource" ev = false -> has_tag "note" ev = false ->
  (exists l', element_body media_paths l ev = Continue l')
  \/ (exists e, element_body media_paths l ev = RaiseHere e []).
Proof.
  destruct ev as [tag text|]; [|right; by eexists].
  cbn [has_tag]. intros Hres Hnote. unfold element_body. rewrite Hres, Hnote.
  destruct (String.eqb tag "title"); [left; by eexists|].
  destruct (String.eqb tag "content"); [left; by eexists|].
  destruct (String.eqb tag "data"); [|left; by eexists].
  destruct (Base64.b64decode (or_empty text)); [left | right]; by eexists.
Qed.

(** X6.  Only the ends of resources and notes change the files, the registry,
    the log and the list of writes: over events without them the world
    stays as it is, also when the run raises on a malformed place or on a
    text that cannot be decoded. *)
Theorem world_changes_at_yields_only output_path emex_file l w :
  existsb (has_tag "resource") emex_file = false ->
  existsb (has_tag "note") emex_file = false ->
  snd (run output_path emex_file l w) = w.
Proof.
  revert l. induction emex_file as [|ev rest IH]; intros l Hres Hnote; [reflexivity|].
  cbn in Hres, Hnote.
  apply orb_false_iff in Hres as [Hres Hres'].
  apply orb_false_iff in Hnote as [Hnote Hnote'].
  cbn [run]. unfold bind.
  destruct (element_body_quiet (media_paths w) l ev Hres Hnote) as [[l' Hb] | [e Hb]].
  - unfold step. rewrite Hb. by apply IH.
  - by rewrite (step_raise_here _ _ _ _ _ Hb).
Qed.

(** What one event that goes well does to the local variables. *)
Lemma step_locals output_path ev l w l' w' :
  step output_path ev l w = (Ok l', w') ->
  (has_tag "title" ev = false -> title l' = title l)
  /\ (has_tag "content" ev = false -> content l' = content l)
  /\ (has_tag "data" ev = false -> data l' = data l).
Proof.
  intros Hstep.
  apply step_ok_cases in Hstep
    as [[Hbody _] | [(text & d & _ & _ & -> & _)
                    | (text & t & c & markdown & records & _ & _ & _ & _ & -> & _)]];
    [|done|done].
  destruct ev as [tag text|]; [|discriminate]. cbn [has_tag].
  unfold element_body in Hbody.
  destruct (String.eqb tag "title") eqn:Et.
  { injection Hbody as <-. cbn. by repeat split. }
  destruct (String.eqb tag "content") eqn:Ec.
  { injection Hbody as <-. cbn. by repeat split. }
  destruct (String.eqb tag "data") eqn:Ed.
  { destruct (Base64.b64decode (or_empty text)); [|discriminate].
    injection Hbody as <-. cbn. by repeat split. }
  destruct (String.eqb tag "resource"); [by destruct (data l)|].
  destruct (String.eqb tag "note").
  { destruct (title l) as [t|]; [|discriminate].
    destruct (content l) as [c|]; [|discriminate].
    by destruct (handle (media_paths w) c) as [[?|?] ?]. }
  injection Hbody as <-. by repeat split.
Qed.

(** X7.  The local variables of the generator are never reset: the title, the
    content and the payload it holds change at the end of a [title], a
    [content] or a [data] element and nowhere else, so that a note or a
    resource without one of its own is given the one of an earlier note or
    resource. *)
Theorem locals_kept_across_yields output_path emex_file :
  forall l w l' w',
    run output_path emex_file l w = (Ok l', w') ->
    (existsb (has_tag "title") emex_file = false -> title l' = title l)
    /\ (existsb (has_tag "content") emex_file = false -> content l' = content l)
    /\ (existsb (has_tag "data") emex_file = false -> data l' = data l).
Proof.
  induction emex_file as [|ev rest IH]; intros l w l' w' Hrun.
  - cbn in Hrun. injection Hrun as <- <-. by repeat split.
  - cbn [run] in Hrun. unfold bind in Hrun.
    destruct (step output_path ev l w) as [[l1|e] w1] eqn:Hstep; [|discriminate].
    destruct (step_locals _ _ _ _ _ _ Hstep) as (Ht & Hc & Hd).
    destruct (IH _ _ _ _ Hrun) as (Ht' & Hc' & Hd').
    cbn [existsb]. repeat split; intros Hno;
      apply orb_false_iff in Hno as [Hev Hrest].
    + by rewrite Ht', Ht.
    + by rewrite Hc', Hc.
    + by rewrite Hd', Hd.
Qed.

(** X8.  A variable the generator reads before any element assigned it is
    unbound: from the start of the archive, a resource that ends before any
    [data] element, and a note that ends before any [title] element, or
    with a title but before any [content] element, raise
    [UnboundLocalError] and end the run in the world the earlier events
    left. *)
Theorem unbound_locals output_path pre w0 l w :
  run output_path pre no_locals w0 = (Ok l, w) ->
  (existsb (has_tag "data") pre = false ->
   forall text rest,
     for_loop output_path (S (List.length (pre ++ End "resource" text :: rest)))
              no_locals (pre ++ End "resource" text :: rest) w0
     = Some (Raise (UnboundLocalError "data"), w))
  /\ (existsb (has_tag "title") pre = false ->
      forall text rest,
        for_loop output_path (S (List.length (pre ++ End "note" text :: rest)))
                 no_locals (pre ++ End "note" text :: rest) w0
        = Some (Raise (UnboundLocalError "title"), w))
  /\ (existsb (has_tag "content") pre = false ->
      forall t text rest,
        title l = Some t ->
        for_loop output_path (S (List.length (pre ++ End "note" text :: rest)))
                 no_locals (pre ++ End "note" text :: rest) w0
        = Some (Raise (UnboundLocalError "content"), w)).
Proof.
  intros Hrun.
  destruct (locals_kept_across_yields _ _ _ _ _ _ Hrun) as (Ht & Hc & Hd).
  split; [|split].
  - intros Hno text rest. specialize (Hd Hno). cbn in Hd.
    rewrite (for_loop_app _ _ _ _ _ _ _ Hrun), for_loop_run by lia.
    cbn [run]. unfold bind. by rewrite step_resource, logging_nothing, Hd.
  - intros Hno text rest. specialize (Ht Hno). cbn in Ht.
    rewrite (for_loop_app _ _ _ _ _ _ _ Hrun), for_loop_run by lia.
    cbn [run]. unfold bind.
    rewrite (step_raise_here _ _ _ _ (UnboundLocalError "title")); [reflexivity|].
    cbn [element_body String.eqb Ascii.eqb Bool.eqb andb]. by rewrite Ht.
  - intros Hno t text rest Htitle. specialize (Hc Hno). cbn in Hc.
    rewrite (for_loop_app _ _ _ _ _ _ _ Hrun), for_loop_run by lia.
    cbn [run]. unfold bind.
    rewrite (step_raise_here _ _ _ _ (UnboundLocalError "content")); [reflexivity|].
    cbn [element_body String.eqb Ascii.eqb Bool.eqb andb]. by rewrite Htitle, Hc.
Qed.


End ReaderProperties.

(** ** What a run keeps *)

Section RunInvariants.

Context `{Collaborators} `{HTML2Text}.

Implicit Types (output_path : path) (w : world) (l : locals)
         (emex_file pre rest : list parse_event).

(** X10.  The registry only grows: a fingerprint that is a key stays a key to
    the end of the run, also when the run raises. *)
Theorem registry_append_only output_path emex_file l w :
  dom (media_paths w) ⊆ dom (media_paths (snd (run output_path emex_file l w))).
Proof.
  intros h Hh. apply elem_of_dom in Hh. apply elem_of_dom.
  by apply (run_preserves output_path _ emex_file (stable_recorded output_path h)).
Qed.

Lemma stable_media_node output_path name (n : node) :
  stable output_path (fun w => fs w !! path_div (media_path output_path) name = Some n).
Proof.
  split; [|split].
  - by intros records [].
  - intros nt w Hw. rewrite save_note_unfold. cbn zeta.
    destruct (slugify (note_title nt)) as [slug|e]; [|done].
    destruct (is_dir _) eqn:Hdir; [done|].
    cbn [snd fs]. rewrite lookup_insert_ne; [done|]. apply note_path_not_media.
  - intros r w Hw. rewrite save_resource_unfold.
    destruct (EXTENSIONS !! from_buffer (resource_data r)) as [ext|]; [|done].
    cbn zeta. cbn [snd].
    destruct (bool_decide _) eqn:Hex; cbn [fs]; [done|].
    apply bool_decide_eq_false in Hex.
    rewrite lookup_insert_ne; [done|].
    intros Heq. apply Hex. rewrite Heq, Hw. eauto.
Qed.

(** X11.  What is in the media directory is never overwritten: a path there that
    exists, with whatever contents, is as it was at the end of the run,
    also when a resource with that name is registered. *)
Theorem media_files_never_overwritten output_path emex_file l w name (n : node) :
  fs w !! path_div (media_path output_path) name = Some n ->
  fs (snd (run output_path emex_file l w)) !! path_div (media_path output_path) name
  = Some n.
Proof.
  apply (run_preserves output_path _ emex_file (stable_media_node output_path name n)).
Qed.


(** X13.  The end of a note whose content cannot be transformed: the exception
    of the transformer ends the run, the note is not written, and the
    records logged before the exception are in the log. *)
Theorem note_not_saved output_path pre text rest l0 w0 l w t c e records :
  run output_path pre l0 w0 = (Ok l, w) ->
  title l = Some t -> content l = Some c ->
  handle (media_paths w) c = (Raise e, records) ->
  for_loop output_path (S (List.length (pre ++ End "note" text :: rest)))
           l0 (pre ++ End "note" text :: rest) w0
  = Some (Raise e, World (media_paths w) (fs w) (log w ++ records)%list (written w)).
Proof.
  intros Hrun Ht Hc Hh.
  rewrite (for_loop_app _ _ _ _ _ _ _ Hrun), for_loop_run by lia.
  cbn [run]. unfold bind at 1, step.
  cbn [element_body String.eqb Ascii.eqb Bool.eqb andb].
  by rewrite Ht, Hc, Hh.
Qed.

(** X23.  The end of a note whose content is transformed and whose title has
    a slug, when [slug.md] in the output directory is a directory:
    [write_text] raises, the run ends there with [OSError] after the two
    records of the note are logged, and nothing is written. *)
Theorem note_path_is_a_directory output_path pre text rest l0 w0 l w t c markdown
        records slug :
  run output_path pre l0 w0 = (Ok l, w) ->
  title l = Some t -> content l = Some c ->
  handle (media_paths w) c = (Ok markdown, records) ->
  slugify t = Ok slug ->
  fs w !! path_div output_path (slug +:+ ".md") = Some Dir ->
  for_loop output_path (S (List.length (pre ++ End "note" text :: rest)))
           l0 (pre ++ End "note" text :: rest) w0
  = Some (Raise (OSError (path_str (path_div output_path (slug +:+ ".md")))),
          World (media_paths w) (fs w)
                (log w ++ records
                 ++ [(INFO, "Note: " +:+ py_str t);
                     (INFO, "Saving " +:+ path_str (path_div output_path (slug +:+ ".md")))])%list
                (written w)).
Proof.
  intros Hrun Ht Hc Hh Hslug Hdir.
  rewrite (for_loop_app _ _ _ _ _ _ _ Hrun), for_loop_run by lia.
  cbn [run]. unfold bind at 1, step.
  cbn [element_body String.eqb Ascii.eqb Bool.eqb andb].
  rewrite Ht, Hc, Hh.
  cbv beta iota delta [bind loop_body ret logging_records modify outcome].
  rewrite save_note_unfold. cbn [note_title note_content]. rewrite Hslug.
  cbn zeta. cbn [fs media_paths log written]. unfold extsep.
  change ("." +:+ "md") with ".md". rewrite Hdir. cbn [is_dir outcome].
  by rewrite <- !app_assoc.
Qed.

End RunInvariants.

(** ** What a run of [process_emex] leaves *)

Section RunResults.

Context `{Collaborators} `{HTML2Text}.

Implicit Types (output_path : path) (w : world) (l : locals)
         (emex_file : list parse_event).

Lemma stable_writes_accounted output_path :
  stable output_path (writes_accounted output_path).
Proof.
  split; [|split].
  - by intros records [].
  - intros n w Hw. rewrite save_note_unfold. cbn zeta.
    destruct (slugify (note_title n)) as [slug|e]; [|done].
    destruct (is_dir _) eqn:Hdir; [done|].
    cbn [snd]. intros f b Hin. cbn [written fs] in *.
    apply elem_of_app in Hin as [Hin | Hin].
    + destruct (Hw f b Hin) as [Hnote | (ext & Hext & -> & Hfs)]; [by left|].
      right. exists ext. split; [done|]. split; [done|].
      rewrite lookup_insert_ne; [done|]. apply note_path_not_media.
    + apply list_elem_of_singleton in Hin. injection Hin as -> ->.
      left. by exists slug.
  - intros r w Hw. rewrite save_resource_unfold.
    destruct (EXTENSIONS !! from_buffer (resource_data r)) as [ext|] eqn:Hext; [|done].
    cbn zeta. cbn [snd].
    destruct (bool_decide _) eqn:Hex; [done|].
    apply bool_decide_eq_false in Hex.
    intros f b Hin. cbn [written fs] in *.
    apply elem_of_app in Hin as [Hin | Hin].
    + destruct (Hw f b Hin) as [Hnote | (ext' & Hext' & -> & Hfs)]; [by left|].
      right. exists ext'. split; [done|]. split; [done|].
      rewrite lookup_insert_ne; [done|].
      intros Heq. apply Hex. rewrite Heq, Hfs. eauto.
    + apply list_elem_of_singleton in Hin. injection Hin as -> ->.
      right. exists ext. split; [done|]. split; [done|].
      apply lookup_insert_eq.
Qed.


Lemma mkdir_from_keeps made todo w :
  written (snd (mkdir_from made todo w)) = written w
  /\ media_paths (snd (mkdir_from made todo w)) = media_paths w.
Proof.
  revert made w. induction todo as [|c todo IH]; intros made w; [done|].
  cbn [mkdir_from]. unfold bind, mkdir1.
  destruct (fs w !! (made ++ [c])%list) as [[|contents]|]; cbn [snd]; try done.
  - destruct (IH (made ++ [c])%list
                 (World (media_paths w) (<[(made ++ [c])%list := Dir]> (fs w)) (log w)
                        (written w))) as [-> ->]. done.
  - destruct (IH (made ++ [c])%list
                 (World (media_paths w) (<[(made ++ [c])%list := Dir]> (fs w)) (log w)
                        (written w))) as [-> ->]. done.
Qed.

(** [process_emex] ends in the world the directory creation left, or in
    the world the events left from there; nothing is written or registered
    before the events. *)
Lemma process_emex_from_start output_path emex_file files :
  exists x w w1,
    process_emex output_path emex_file files = Some (x, w)
    /\ written w1 = [] /\ media_paths w1 = ∅
    /\ (w = w1 \/ w = snd (run output_path emex_file no_locals w1)).
Proof.
  unfold process_emex. unfold bind at 1. unfold logging at 1, modify.
  cbn [media_paths fs log written]. unfold bind.
  set (wa := World ∅ files ([] ++ [(INFO, "Creating target directories…")]) []).
  destruct (mkdir_from_keeps [] output_path wa) as [Hwa Hma].
  fold (mkdir output_path) in Hwa, Hma.
  destruct (mkdir output_path wa) as [[[]|e] wb].
  2: { exists (Raise e), wb, wb. cbn in *. by repeat split; auto. }
  destruct (mkdir_from_keeps [] (media_path output_path) wb) as [Hwb Hmb].
  fold (mkdir (media_path output_path)) in Hwb, Hmb.
  destruct (mkdir (media_path output_path) wb) as [[[]|e] wc].
  2: { exists (Raise e), wc, wc. cbn in *.
       repeat split; auto; [by rewrite Hwb | by rewrite Hmb]. }
  rewrite for_loop_run by lia.
  destruct (run output_path emex_file no_locals wc) as [[l|e] w] eqn:Hrun.
  - exists (Ok tt), w, wc. cbn in *.
    split; [done|]. split; [by rewrite Hwb|]. split; [by rewrite Hmb | right; by rewrite Hrun].
  - exists (Raise e), w, wc. cbn in *.
    split; [done|]. split; [by rewrite Hwb|]. split; [by rewrite Hmb | right; by rewrite Hrun].
Qed.

(** X15.  Whatever the archive and however the run ends, every file written in
    the media directory was written under the MD5 of the payload written
    into it, with the extension of the payload's MIME type, and holds that
    payload at the end; every other write is a note in the output
    directory. *)
Theorem media_files_content_addressed output_path emex_file files :
  exists x w,
    process_emex output_path emex_file files = Some (x, w)
    /\ forall f b,
        (f, b) ∈ written w ->
        (exists slug, f = path_div output_path (slug +:+ ".md"))
        \/ (exists extension,
              EXTENSIONS !! from_buffer b = Some extension
              /\ f = path_div (media_path output_path)
                              (MD5.hexdigest b +:+ "." +:+ extension)
              /\ fs w !! f = Some (File b)).
Proof.
  destruct (process_emex_from_start output_path emex_file files)
    as (x & w & w1 & Hrun & Hwr & _ & Hw).
  exists x, w. split; [exact Hrun|].
  assert (Hstart : writes_accounted output_path w1).
  { intros f b Hin. rewrite Hwr in Hin. by apply elem_of_nil in Hin. }
  destruct Hw as [-> | ->]; [exact Hstart|].
  by apply (run_preserves output_path _ emex_file (stable_writes_accounted output_path)).
Qed.


End RunResults.

(** ** Decoding undoes the standard encoding *)

Module Base64RoundTrip.

Import Base64 Base64Encode.

Lemma byte_values_all (b : byte) : In (val b) byte_values.
Proof.
  unfold byte_values, val. apply in_map_iff.
  exists (N.to_nat (Byte.to_N b)). split.
  - by rewrite N_nat_Z.
  - apply in_seq. pose proof (Byte.to_N_bounded b). lia.
Qed.

Lemma to_byte_val (b : byte) : to_byte (val b) = b.
Proof. destruct b; reflexivity. Qed.

Lemma to_byte_land x : to_byte (Z.land x 255) = to_byte x.
Proof.
  unfold to_byte. by rewrite <- Z.land_assoc, Z.land_diag.
Qed.

Lemma groups_ok :
  forallb (fun x => forallb (group_ok x) byte_values) byte_values = true.
Proof. vm_compute. reflexivity. Qed.

Lemma group_ok_bytes (a b : byte) : group_ok (val a) (val b) = true.
Proof.
  pose proof groups_ok as Hall. rewrite forallb_forall in Hall.
  specialize (Hall (val a) (byte_values_all a)). rewrite forallb_forall in Hall.
  exact (Hall (val b) (byte_values_all b)).
Qed.

Lemma group_ok_zero (a : byte) : group_ok (val a) 0 = true.
Proof. exact (group_ok_bytes a x00). Qed.

Lemma digit_ok_spec v :
  digit_ok v = true -> is_pad (digit v) = false /\ sextet (digit v) = Some v.
Proof.
  unfold digit_ok. intros Hok. apply andb_true_iff in Hok as [Hpad Hsex].
  apply negb_true_iff in Hpad. split; [exact Hpad|].
  destruct (sextet (digit v)) as [v'|]; [|discriminate].
  apply Z.eqb_eq in Hsex. by subst.
Qed.

(** One digit in the loop. *)
Lemma a2b_loop_digit v s quad_pos leftchar pads out :
  digit_ok v = true ->
  a2b_loop (digit v :: s) quad_pos leftchar pads out =
  match quad_pos with
  | O => a2b_loop s 1 v 0 out
  | 1%nat =>
      a2b_loop s 2 (Z.land v 15) 0
               (to_byte (Z.lor (Z.shiftl leftchar 2) (Z.shiftr v 4)) :: out)
  | 2%nat =>
      a2b_loop s 3 (Z.land v 3) 0
               (to_byte (Z.lor (Z.shiftl leftchar 4) (Z.shiftr v 2)) :: out)
  | _ => a2b_loop s 0 0 0 (to_byte (Z.lor (Z.shiftl leftchar 6) v) :: out)
  end.
Proof.
  intros Hok. destruct (digit_ok_spec v Hok) as [Hpad Hsex].
  cbn [a2b_loop]. by rewrite Hpad, Hsex.
Qed.

Ltac split_ok H :=
  repeat match type of H with
         | (_ && _) = true => let H' := fresh "Hok" in apply andb_true_iff in H as [H H']
         end.

(** The first byte of a group comes back from its first two digits. *)
Lemma first_byte (a b : byte) :
  digit_ok (s0 (val a)) = true /\ digit_ok (s1 (val a) (val b)) = true
  /\ to_byte (Z.lor (Z.shiftl (s0 (val a)) 2) (Z.shiftr (s1 (val a) (val b)) 4)) = a
  /\ Z.land (s1 (val a) (val b)) 15 = Z.shiftr (val b) 4.
Proof.
  pose proof (group_ok_bytes a b) as Hok. unfold group_ok in Hok. split_ok Hok.
  repeat split; try done.
  - rewrite <- to_byte_land. apply Z.eqb_eq in Hok4. rewrite Hok4. apply to_byte_val.
  - by apply Z.eqb_eq.
Qed.

Lemma first_byte_alone (a : byte) :
  digit_ok (s0 (val a)) = true /\ digit_ok (s1 (val a) 0) = true
  /\ to_byte (Z.lor (Z.shiftl (s0 (val a)) 2) (Z.shiftr (s1 (val a) 0) 4)) = a.
Proof.
  pose proof (group_ok_zero a) as Hok. unfold group_ok in Hok. split_ok Hok.
  repeat split; try done.
  rewrite <- to_byte_land. apply Z.eqb_eq in Hok4. rewrite Hok4. apply to_byte_val.
Qed.

(** The second byte comes back from the second and the third digit. *)
Lemma second_byte (b c : byte) :
  digit_ok (s2 (val b) (val c)) = true
  /\ to_byte (Z.lor (Z.shiftl (Z.shiftr (val b) 4) 4) (Z.shiftr (s2 (val b) (val c)) 2)) = b
  /\ Z.land (s2 (val b) (val c)) 3 = Z.shiftr (val c) 6.
Proof.
  pose proof (group_ok_bytes b c) as Hok. unfold group_ok in Hok. split_ok Hok.
  repeat split; try done.
  - rewrite <- to_byte_land. apply Z.eqb_eq in Hok2. rewrite Hok2. apply to_byte_val.
  - by apply Z.eqb_eq.
Qed.

Lemma second_byte_alone (b : byte) :
  digit_ok (s2 (val b) 0) = true
  /\ to_byte (Z.lor (Z.shiftl (Z.shiftr (val b) 4) 4) (Z.shiftr (s2 (val b) 0) 2)) = b.
Proof.
  pose proof (group_ok_zero b) as Hok. unfold group_ok in Hok. split_ok Hok.
  repeat split; try done.
  rewrite <- to_byte_land. apply Z.eqb_eq in Hok2. rewrite Hok2. apply to_byte_val.
Qed.

(** The third byte comes back from the third and the fourth digit. *)
Lemma third_byte (c : byte) :
  digit_ok (s3 (val c)) = true
  /\ to_byte (Z.lor (Z.shiftl (Z.shiftr (val c) 6) 6) (s3 (val c))) = c.
Proof.
  pose proof (group_ok_zero c) as Hok. unfold group_ok in Hok. split_ok Hok.
  repeat split; try done.
  rewrite <- to_byte_land. apply Z.eqb_eq in Hok0. rewrite Hok0. apply to_byte_val.
Qed.

(** The four digits of three bytes give the three bytes back. *)
Lemma a2b_loop_group (a b c : byte) s leftchar pads out :
  a2b_loop (digit (s0 (val a)) :: digit (s1 (val a) (val b))
            :: digit (s2 (val b) (val c)) :: digit (s3 (val c)) :: s)
           0 leftchar pads out
  = a2b_loop s 0 0 0 (c :: b :: a :: out).
Proof.
  destruct (first_byte a b) as (H0 & H1 & Ha & Hl1).
  destruct (second_byte b c) as (H2 & Hb & Hl2).
  destruct (third_byte c) as (H3 & Hc).
  rewrite (a2b_loop_digit _ _ _ _ _ _ H0). cbv iota.
  rewrite (a2b_loop_digit _ _ _ _ _ _ H1). cbv iota. rewrite Ha, Hl1.
  rewrite (a2b_loop_digit _ _ _ _ _ _ H2). cbv iota. rewrite Hb, Hl2.
  rewrite (a2b_loop_digit _ _ _ _ _ _ H3). cbv iota. by rewrite Hc.
Qed.

Lemma a2b_loop_encoded n :
  forall (b : bytes) out,
    (List.length b <= n)%nat ->
    a2b_loop (b64encode b) 0 0 0 out = Ok (rev out ++ b)%list.
Proof.
  induction n as [|n IH]; intros b out Hlen.
  - destruct b; [|cbn in Hlen; lia]. cbn. by rewrite app_nil_r.
  - destruct b as [|a [|b [|c rest]]].
    + cbn. by rewrite app_nil_r.
    + destruct (first_byte_alone a) as (H0 & H1 & Ha).
      cbn [b64encode].
      rewrite (a2b_loop_digit _ _ _ _ _ _ H0). cbv iota.
      rewrite (a2b_loop_digit _ _ _ _ _ _ H1). cbv iota. rewrite Ha.
      reflexivity.
    + destruct (first_byte a b) as (H0 & H1 & Ha & Hl1).
      destruct (second_byte_alone b) as (H2 & Hb).
      cbn [b64encode].
      rewrite (a2b_loop_digit _ _ _ _ _ _ H0). cbv iota.
      rewrite (a2b_loop_digit _ _ _ _ _ _ H1). cbv iota. rewrite Ha, Hl1.
      rewrite (a2b_loop_digit _ _ _ _ _ _ H2). cbv iota. rewrite Hb.
      cbn. by rewrite <- app_assoc.
    + cbn [b64encode]. rewrite a2b_loop_group.
      rewrite IH by (cbn in Hlen; lia).
      cbn. by rewrite <- !app_assoc.
Qed.

(** Characters that are neither digits nor padding are skipped. *)
Lemma a2b_loop_significant s :
  forall quad_pos leftchar pads out,
    a2b_loop (List.filter significant s) quad_pos leftchar pads out
    = a2b_loop s quad_pos leftchar pads out.
Proof.
  induction s as [|c s IH]; intros quad_pos leftchar pads out; [reflexivity|].
  cbn [List.filter]. unfold significant at 1.
  destruct (is_pad c) eqn:Hpad.
  - cbn [orb a2b_loop]. rewrite Hpad.
    destruct (2 <=? quad_pos)%nat; [|apply IH].
    destruct (4 <=? quad_pos + S pads)%nat; [reflexivity | apply IH].
  - cbn [orb]. destruct (sextet c) as [v|] eqn:Hv.
    + rewrite bool_decide_eq_true_2 by eauto.
      cbn [a2b_loop]. rewrite Hpad, Hv.
      destruct quad_pos as [|[|[|?]]]; apply IH.
    + rewrite bool_decide_eq_false_2 by (intros [? ?]; discriminate).
      cbn [a2b_loop]. rewrite Hpad, Hv. apply IH.
Qed.

Lemma or_empty_decoded s : b64decode (or_empty (PyStr s)) = b64decode s.
Proof.
  unfold or_empty. cbn. by destruct (String.eqb_spec s "") as [->|].
Qed.

End Base64RoundTrip.

Section DataPayloads.

Context `{HTML2Text}.

(** X18.  A [data] element whose text is the standard Base64 encoding of a
    payload, with any other ASCII characters (line breaks, spaces) in
    between, makes the generator hold exactly that payload. *)
Theorem data_round_trip (payload : bytes) (s : string) :
  forallb Base64.is_ascii (list_ascii_of_string s) = true ->
  List.filter Base64Encode.significant (list_ascii_of_string s)
  = Base64Encode.b64encode payload ->
  Base64.b64decode s = Ok payload
  /\ forall (media_paths : gmap string path) (l : locals),
      element_body media_paths l (End "data" (PyStr s))
      = Continue (Locals (title l) (content l) (Some payload)).
Proof.
  intros Hascii Henc.
  assert (Hdec : Base64.b64decode s = Ok payload).
  { unfold Base64.b64decode, Base64.a2b_base64. rewrite Hascii.
    rewrite <- Base64RoundTrip.a2b_loop_significant, Henc.
    by rewrite (Base64RoundTrip.a2b_loop_encoded (List.length payload)). }
  split; [exact Hdec|].
  intros media_paths l. unfold element_body.
  cbn [String.eqb Ascii.eqb Bool.eqb andb].
  by rewrite Base64RoundTrip.or_empty_decoded, Hdec.
Qed.

(** X19.  What the decoding of a text gives depends on its digits and padding
    characters only: an ASCII text is decoded as the text without its other
    characters, to the same payload or to the same exception. *)
Theorem b64decode_ignores_other_characters (s : string) :
  forallb Base64.is_ascii (list_ascii_of_string s) = true ->
  Base64.b64decode s
  = Base64.b64decode
      (string_of_list_ascii
         (List.filter Base64Encode.significant (list_ascii_of_string s))).
Proof.
  intros Hascii. unfold Base64.b64decode, Base64.a2b_base64.
  rewrite list_ascii_of_string_of_list_ascii, Hascii.
  assert (Hfil : forallb Base64.is_ascii
                   (List.filter Base64Encode.significant (list_ascii_of_string s)) = true).
  { apply forallb_forall. intros c Hc. apply filter_In in Hc as [Hc _].
    rewrite forallb_forall in Hascii. by apply Hascii. }
  rewrite Hfil. symmetry. apply Base64RoundTrip.a2b_loop_significant.
Qed.

End DataPayloads.

(** ** Texts without padding *)

Module Base64Length.

Import Base64 Base64Encode.

Lemma a2b_loop_no_pad_length s :
  existsb is_pad s = false ->
  forall quad_pos leftchar pads out b k,
    (quad_pos < 4)%nat ->
    (quad_pos + digits s = 4 * k)%nat ->
    a2b_loop s quad_pos leftchar pads out = Ok b ->
    (List.length b + emitted quad_pos = List.length out + 3 * k)%nat.
Proof.
  induction s as [|c s IH]; intros Hpad quad_pos leftchar pads out b k Hq Hk Hb.
  - unfold digits in Hk. cbn in Hk.
    destruct quad_pos as [|[|[|[|?]]]]; try lia; cbn in Hb; try discriminate.
    injection Hb as <-. rewrite length_rev. cbn. lia.
  - cbn in Hpad. apply orb_false_iff in Hpad as [Hc Hpad].
    cbn [a2b_loop] in Hb. rewrite Hc in Hb.
    destruct (sextet c) as [v|] eqn:Hv.
    + rewrite (Base64Facts.digits_cons_digit _ _ _ Hv) in Hk.
      destruct quad_pos as [|[|[|[|?]]]]; try lia.
      * pose proof (IH Hpad 1%nat _ _ _ _ k ltac:(lia) ltac:(lia) Hb) as Hl.
        cbn in *. lia.
      * pose proof (IH Hpad 2%nat _ _ _ _ k ltac:(lia) ltac:(lia) Hb) as Hl.
        cbn in *. lia.
      * pose proof (IH Hpad 3%nat _ _ _ _ k ltac:(lia) ltac:(lia) Hb) as Hl.
        cbn in *. lia.
      * pose proof (IH Hpad 0%nat _ _ _ _ (k - 1)%nat ltac:(lia) ltac:(lia) Hb) as Hl.
        cbn in *. lia.
    + rewrite (Base64Facts.digits_cons_other _ _ Hv) in Hk.
      by apply (IH Hpad _ _ _ _ _ k Hq Hk Hb).
Qed.

End Base64Length.

(** X20.  A text of ASCII characters without [=] is decoded exactly when its
    digits fill whole groups of four, to three bytes for each group;
    otherwise the decoding raises. *)
Theorem unpadded_text_decoding (s : string) :
  forallb Base64.is_ascii (list_ascii_of_string s) = true ->
  existsb Base64.is_pad (list_ascii_of_string s) = false ->
  ((Base64.digits (list_ascii_of_string s) mod 4)%nat = 0%nat ->
   exists b,
     Base64.b64decode s = Ok b
     /\ List.length b = (3 * (Base64.digits (list_ascii_of_string s) / 4))%nat)
  /\ ((Base64.digits (list_ascii_of_string s) mod 4)%nat <> 0%nat ->
      exists msg, Base64.b64decode s = Raise (BinasciiError msg)).
Proof.
  intros Hascii Hpad. split.
  - intros Hmod.
    pose proof (Base64Facts.a2b_loop_no_pad _ Hpad 0%nat 0 0%nat []) as Hloop.
    cbn [Nat.add] in Hloop. destruct (decide _) as [_|Hne]; [|done].
    destruct Hloop as [b Hb]; [lia|].
    exists b. unfold Base64.b64decode, Base64.a2b_base64. rewrite Hascii.
    split; [exact Hb|].
    pose proof (Nat.div_mod_eq (Base64.digits (list_ascii_of_string s)) 4) as Hdiv.
    rewrite Hmod, Nat.add_0_r in Hdiv.
    assert (Hlt : (0 < 4)%nat) by lia.
    pose proof (Base64Length.a2b_loop_no_pad_length _ Hpad 0%nat 0 0%nat [] b
                  (Base64.digits (list_ascii_of_string s) / 4)%nat
                  Hlt Hdiv Hb) as Hlen.
    cbn [Base64Encode.emitted List.length Nat.add] in Hlen.
    rewrite Nat.add_0_r in Hlen. exact Hlen.
  - by apply Base64Facts.b64decode_open_group.
Qed.

Lemma unpadded_text_decoding_witness :
  exists b, Base64.b64decode "aGVsbG8h" = Ok b /\ List.length b = 6%nat.
Proof.
  destruct (unpadded_text_decoding "aGVsbG8h" eq_refl eq_refl) as [Hok _].
  apply Hok. reflexivity.
Defined.

Lemma data_round_trip_witness :
  Base64.b64decode (String (ascii_of_nat 10) "aGVs bG8=")
  = Ok (list_byte_of_string "hello").
Proof.
  destruct (data_round_trip (H := Plain.html2text) (list_byte_of_string "hello")
              (String (ascii_of_nat 10) "aGVs bG8=")) as [Hdec _].
  - reflexivity.
  - vm_compute. reflexivity.
  - exact Hdec.
Defined.

Lemma b64decode_ignores_other_characters_witness :
  Base64.b64decode "a!b*c" = Base64.b64decode "abc".
Proof.
  refine (eq_trans (b64decode_ignores_other_characters "a!b*c" eq_refl) _).
  vm_compute. reflexivity.
Defined.

(** ** The names of the media files *)

Module MD5Facts.

Import MD5.








End MD5Facts.




Section MediaFileNames.

Context `{Collaborators}.


End MediaFileNames.


(** ** Repeated attributes *)

Section MoreTransformer.

Context `{HTML2Text}.

(** X4.  [dict(attrs)] keeps the last value of a repeated attribute: it is the
    last [hash] that an embedded-media reference is resolved with, and the
    last [checked] that decides the box of a checkable item. *)
Theorem last_attribute_wins (media_paths : gmap string path)
        (before after : list (string * pyval)) (v : pyval) (p : parser) :
  ("hash" ∉ after.*1 ->
   handle_starttag media_paths "en-media" (before ++ ("hash", v) :: after) p
   = match media_paths_getitem media_paths v with
     | Ok f =>
         (Ok tt,
          Parser (o ("![" +:+ py_str (get (dict (before ++ ("hash", v) :: after))
                                         "title" (PyStr ""))
                     +:+ "](" +:+ path_str f +:+ ")") (generic p))
                 (plog p))
     | Raise e => (Raise e, p)
     end)
  /\ ("checked" ∉ after.*1 ->
      handle_starttag media_paths "en-todo" (before ++ ("checked", v) :: after) p
      = (Ok tt, Parser (o (if truthy v then "[x]" else "[ ]") (generic p)) (plog p))).
Proof.
  split; intros Hlast.
  - rewrite handle_starttag_en_media, (dict_lookup_last _ _ _ v Hlast).
    by destruct (media_paths_getitem media_paths v).
  - rewrite handle_starttag_en_todo. unfold get.
    by rewrite (dict_lookup_last _ _ _ v Hlast).
Qed.

End MoreTransformer.

Lemma last_attribute_wins_witness :
  handle_starttag (H := Plain.html2text) ∅ "en-todo"
                  [("checked", PyStr "true"); ("checked", PyStr "")] fresh_parser
  = (Ok tt, Parser (H := Plain.html2text) "[ ]" []).
Proof.
  destruct (last_attribute_wins (H := Plain.html2text) ∅ [("checked", PyStr "true")] []
              (PyStr "") fresh_parser) as [_ Htodo].
  apply Htodo. apply not_elem_of_nil.
Defined.

(** ** One write for each note *)

Section NoteWrites.

Context `{Collaborators} `{HTML2Text}.

Implicit Types (output_path : path) (w : world) (l : locals)
         (ev : parse_event) (emex_file : list parse_event).

Lemma continue_not_yield (media_paths : gmap string path) l ev l' :
  element_body media_paths l ev = Continue l' ->
  has_tag "note" ev = false /\ has_tag "resource" ev = false.
Proof.
  destruct ev as [tag text|]; [|discriminate]. cbn [has_tag].
  destruct (String.eqb_spec tag "resource") as [->|_].
  { cbn. by destruct (data l). }
  destruct (String.eqb_spec tag "note") as [->|_]; [|done].
  cbn. destruct (title l) as [t|]; [|discriminate].
  destruct (content l) as [c|]; [|discriminate].
  by destruct (handle media_paths c) as [[?|?] ?].
Qed.

Lemma note_writes_step output_path ev l w l' w' :
  step output_path ev l w = (Ok l', w') ->
  List.length (List.filter (is_note_write output_path) (written w'))
  = (List.length (List.filter (is_note_write output_path) (written w))
     + (if has_tag "note" ev then 1 else 0))%nat.
Proof.
  intros Hstep.
  apply step_ok_cases in Hstep
    as [[Hbody ->] | [(text & d & -> & _ & _ & Hsave)
                     | (text & t & c & markdown & records & -> & _ & _ & _ & _ & Hsave)]].
  - destruct (continue_not_yield _ _ _ _ Hbody) as [-> _]. lia.
  - cbn [has_tag String.eqb Ascii.eqb Bool.eqb andb].
    rewrite save_resource_unfold in Hsave.
    destruct (EXTENSIONS !! from_buffer (resource_data (mkResource d))); [|discriminate].
    cbn zeta in Hsave. injection Hsave as <-.
    destruct (bool_decide _); cbn [written]; [lia|].
    rewrite List.filter_app, length_app. cbn [List.filter].
    unfold is_note_write at 2. cbn [fst].
    replace (List.length (path_div (media_path output_path) _))
      with (S (S (List.length output_path)))
      by (unfold path_div, media_path; rewrite !length_app; cbn; lia).
    rewrite (proj2 (Nat.eqb_neq _ _)) by lia. cbn. lia.
  - cbn [has_tag String.eqb Ascii.eqb Bool.eqb andb].
    rewrite save_note_unfold in Hsave. cbn zeta in Hsave.
    destruct (slugify (note_title (mkNote t markdown))) as [slug|e]; [|discriminate].
    destruct (is_dir _) eqn:Hdir; [discriminate|].
    injection Hsave as <-. cbn [written].
    replace (written (snd (logging_records records w))) with (written w) by (by destruct w).
    rewrite List.filter_app, length_app. cbn [List.filter].
    unfold is_note_write at 2. cbn [fst].
    replace (List.length (path_div output_path _)) with (S (List.length output_path))
      by (unfold path_div; rewrite length_app; cbn; lia).
    rewrite Nat.eqb_refl. cbn. lia.
Qed.

(** X14.  In a run that goes well, each note of the archive is written once: the
    writes into the output directory are as many as the notes that ended,
    also when several notes have the same slug and are written to the same
    file one over the other. *)
Theorem one_write_per_note output_path emex_file :
  forall l w l' w',
    run output_path emex_file l w = (Ok l', w') ->
    List.length (List.filter (is_note_write output_path) (written w'))
    = (List.length (List.filter (is_note_write output_path) (written w))
       + List.length (List.filter (has_tag "note") emex_file))%nat.
Proof.
  induction emex_file as [|ev rest IH]; intros l w l' w' Hrun.
  - cbn in Hrun. injection Hrun as <- <-. cbn. lia.
  - cbn [run] in Hrun. unfold bind in Hrun.
    destruct (step output_path ev l w) as [[l1|e] w1] eqn:Hstep; [|discriminate].
    rewrite (IH _ _ _ _ Hrun), (note_writes_step _ _ _ _ _ _ Hstep).
    cbn [List.filter]. destruct (has_tag "note" ev); cbn; lia.
Qed.

End NoteWrites.

(** ** The directories *)

Section Directories.

Context `{Collaborators} `{HTML2Text}.

Implicit Types (output_path made todo : path) (w : world) (files : gmap path node).

(** Creating directories below [made] leaves the paths that are not
    longer than [made] as they are. *)
Lemma mkdir_from_other todo :
  forall made w w' f,
    mkdir_from made todo w = (Ok tt, w') ->
    (List.length f <= List.length made)%nat ->
    fs w' !! f = fs w !! f.
Proof.
  induction todo as [|c todo IH]; intros made w w' f Hrun Hlen.
  - cbn in Hrun. by injection Hrun as <-.
  - cbn [mkdir_from] in Hrun. unfold bind in Hrun.
    destruct (mkdir1 (made ++ [c])%list w) as [[[]|e] w1] eqn:Hstep; [|discriminate].
    rewrite (IH _ _ _ f Hrun) by (rewrite length_app; cbn; lia).
    unfold mkdir1 in Hstep.
    assert (Hne : (made ++ [c])%list <> f).
    { intros <-. rewrite length_app in Hlen. cbn in Hlen. lia. }
    destruct (fs w !! (made ++ [c])%list) as [[|?]|]; try discriminate;
      injection Hstep as <-; cbn [fs]; by rewrite lookup_insert_ne.
Qed.

Lemma mkdir_from_ok todo :
  forall made w,
    (forall k c, (1 <= k <= List.length todo)%nat ->
                 fs w !! (made ++ firstn k todo)%list <> Some (File c)) ->
    exists w',
      mkdir_from made todo w = (Ok tt, w')
      /\ (forall k, (1 <= k <= List.length todo)%nat ->
                    fs w' !! (made ++ firstn k todo)%list = Some Dir)
      /\ (forall f c, fs w' !! f = Some (File c) <-> fs w !! f = Some (File c)).
Proof.
  induction todo as [|c todo IH]; intros made w Hfree.
  - exists w. cbn. repeat split; try done. intros k Hk. lia.
  - assert (Hfirst : forall c', fs w !! (made ++ [c])%list <> Some (File c')).
    { intros c'. apply (Hfree 1%nat c'). cbn. lia. }
    set (w1 := World (media_paths w) (<[(made ++ [c])%list := Dir]> (fs w)) (log w)
                     (written w)).
    assert (Hstep : mkdir1 (made ++ [c])%list w = (Ok tt, w1)).
    { unfold mkdir1. destruct (fs w !! (made ++ [c])%list) as [[|c']|] eqn:E; try done.
      by destruct (Hfirst c'). }
    assert (Hfiles : forall f c', fs w1 !! f = Some (File c') <-> fs w !! f = Some (File c')).
    { intros f c'. cbn [fs w1]. rewrite lookup_insert. case_decide as Hf; [|done].
      subst f. split; [done|]. intros Hc. by destruct (Hfirst c'). }
    destruct (IH (made ++ [c])%list w1) as (w' & Hrun & Hdirs & Hkeep).
    { intros k c' Hk. rewrite Hfiles. rewrite <- app_assoc.
      apply (Hfree (S k) c'). cbn. lia. }
    exists w'. split; [|split].
    + cbn [mkdir_from]. unfold bind. by rewrite Hstep.
    + intros k Hk. destruct k as [|[|k]]; [lia| |].
      * cbn [firstn]. rewrite (mkdir_from_other _ _ _ _ _ Hrun) by done.
        cbn [fs w1]. apply lookup_insert_eq.
      * cbn [firstn]. specialize (Hdirs (S k)). rewrite <- app_assoc in Hdirs.
        apply Hdirs. cbn in Hk |- *. lia.
    + intros f c'. by rewrite Hkeep, Hfiles.
Qed.

Lemma slug_md_not_media (slug : string) : slug +:+ ".md" <> "media".
Proof.
  do 6 (destruct slug as [|? slug]; [discriminate|]). discriminate.
Qed.

Lemma stable_directory output_path k :
  (1 <= k <= List.length (media_path output_path))%nat ->
  stable output_path
         (fun w => fs w !! firstn k (media_path output_path) = Some Dir).
Proof.
  intros Hk.
  assert (Hlen : List.length (firstn k (media_path output_path)) = k).
  { rewrite length_firstn. lia. }
  unfold media_path in Hk. rewrite length_app in Hk. cbn in Hk.
  split; [|split].
  - by intros records [].
  - intros n w Hw. rewrite save_note_unfold. cbn zeta.
    destruct (slugify (note_title n)) as [slug|e]; [|done].
    destruct (is_dir _) eqn:Hdir; [done|].
    cbn [snd fs]. rewrite lookup_insert_ne; [done|].
    intros Heq.
    destruct (decide (k = S (List.length output_path))) as [->|Hne].
    + rewrite firstn_all2 in Heq
        by (unfold media_path; rewrite length_app; cbn; lia).
      unfold path_div, media_path, relative_media_path in Heq.
      apply app_inv_head in Heq. injection Heq as Heq.
      by apply (slug_md_not_media slug).
    + apply (f_equal (@List.length string)) in Heq.
      rewrite Hlen in Heq. unfold path_div in Heq. rewrite length_app in Heq.
      cbn in Heq. lia.
  - intros r w Hw. rewrite save_resource_unfold.
    destruct (EXTENSIONS !! from_buffer (resource_data r)) as [ext|]; [|done].
    cbn zeta. cbn [snd].
    destruct (bool_decide _); cbn [fs]; [done|].
    rewrite lookup_insert_ne; [done|].
    intros Heq. apply (f_equal (@List.length string)) in Heq.
    rewrite Hlen in Heq. unfold path_div, media_path in Heq.
    rewrite !length_app in Heq. cbn in Heq. lia.
Qed.

(** X21.  When no file is in the way of the output directory, of the media
    directory or of one of their parents, [process_emex] creates them all
    before it reads the archive, and they are directories at the end of
    the run, however it ends. *)
Theorem directories_created output_path emex_file files :
  (forall k c, (1 <= k <= List.length (media_path output_path))%nat ->
               files !! firstn k (media_path output_path) <> Some (File c)) ->
  exists x w,
    process_emex output_path emex_file files = Some (x, w)
    /\ forall k, (1 <= k <= List.length (media_path output_path))%nat ->
                 fs w !! firstn k (media_path output_path) = Some Dir.
Proof.
  intros Hfree. unfold process_emex. unfold bind at 1. unfold logging at 1, modify.
  cbn [media_paths fs log written]. unfold bind.
  set (wa := World ∅ files ([] ++ [(INFO, "Creating target directories…")]) []).
  assert (Hlen : List.length (media_path output_path) = S (List.length output_path)).
  { unfold media_path. rewrite length_app. cbn. lia. }
  destruct (mkdir_from_ok output_path [] wa) as (wb & Hb & _ & Hkeepb).
  { intros k c Hk. cbn [app fs wa].
    replace (firstn k output_path) with (firstn k (media_path output_path))
      by (unfold media_path; rewrite firstn_app;
          replace (k - List.length output_path)%nat with 0%nat by lia;
          cbn; by rewrite app_nil_r).
    apply Hfree. lia. }
  unfold mkdir at 1. rewrite Hb.
  destruct (mkdir_from_ok (media_path output_path) [] wb) as (wc & Hc & Hdirs & _).
  { intros k c Hk. cbn [app]. rewrite Hkeepb. cbn [fs wa]. by apply Hfree. }
  cbn [app] in Hdirs.
  unfold mkdir. rewrite Hc. rewrite for_loop_run by lia.
  destruct (outcome (run output_path emex_file no_locals wc)) as [x w] eqn:Hout.
  exists x, w. split; [reflexivity|].
  intros k Hk.
  assert (Hw : w = snd (run output_path emex_file no_locals wc)).
  { destruct (run output_path emex_file no_locals wc) as [[?|?] ?];
      cbn in Hout; by injection Hout as _ <-. }
  rewrite Hw.
  apply (run_preserves output_path _ emex_file (stable_directory output_path k Hk)).
  exact (Hdirs k Hk).
Qed.

(** Creating directories never replaces a file, and raises nothing but
    [OSError]. *)
Lemma mkdir_from_files todo :
  forall made w x w',
    mkdir_from made todo w = (x, w') ->
    (forall f c, fs w !! f = Some (File c) -> fs w' !! f = Some (File c))
    /\ (x = Ok tt \/ exists name, x = Raise (OSError name)).
Proof.
  induction todo as [|c0 todo IH]; intros made w x w' Hrun.
  - cbn in Hrun. injection Hrun as <- <-. split; [done | by left].
  - cbn [mkdir_from] in Hrun. unfold bind, mkdir1 in Hrun.
    destruct (fs w !! (made ++ [c0])%list) as [[|c']|] eqn:E.
    + destruct (IH _ _ _ _ Hrun) as [Hkeep Hx]. split; [|exact Hx].
      intros f c Hf. apply Hkeep. cbn [fs]. rewrite lookup_insert_ne; [done|].
      intros <-. rewrite E in Hf. discriminate.
    + injection Hrun as <- <-. split; [done | right; by eexists].
    + destruct (IH _ _ _ _ Hrun) as [Hkeep Hx]. split; [|exact Hx].
      intros f c Hf. apply Hkeep. cbn [fs]. rewrite lookup_insert_ne; [done|].
      intros <-. rewrite E in Hf. discriminate.
Qed.

Lemma mkdir_from_blocked todo :
  forall made w k c,
    (1 <= k <= List.length todo)%nat ->
    fs w !! (made ++ firstn k todo)%list = Some (File c) ->
    exists name w', mkdir_from made todo w = (Raise (OSError name), w').
Proof.
  induction todo as [|c0 todo IH]; intros made w k c Hk Hfile; [cbn in Hk; lia|].
  cbn [mkdir_from]. unfold bind, mkdir1.
  destruct (fs w !! (made ++ [c0])%list) as [[|c']|] eqn:E; [|by eauto|].
  - destruct k as [|[|k]]; [lia| |].
    + rewrite firstn_cons, firstn_O in Hfile. rewrite E in Hfile. discriminate.
    + apply (IH _ _ (S k) c); [cbn in Hk |- *; lia|].
      cbn [fs]. rewrite <- app_assoc. rewrite firstn_cons in Hfile.
      cbn [app]. rewrite lookup_insert_ne; [exact Hfile|].
      intros Heq. apply (f_equal (@List.length string)) in Heq.
      rewrite !length_app in Heq. cbn [List.length] in Heq, Hk.
      rewrite length_firstn in Heq. lia.
  - destruct k as [|[|k]]; [lia| |].
    + rewrite firstn_cons, firstn_O in Hfile. rewrite E in Hfile. discriminate.
    + apply (IH _ _ (S k) c); [cbn in Hk |- *; lia|].
      cbn [fs]. rewrite <- app_assoc. rewrite firstn_cons in Hfile.
      cbn [app]. rewrite lookup_insert_ne; [exact Hfile|].
      intros Heq. apply (f_equal (@List.length string)) in Heq.
      rewrite !length_app in Heq. cbn [List.length] in Heq, Hk.
      rewrite length_firstn in Heq. lia.
Qed.

(** X22.  When a file is where the output directory, the media directory or one
    of their parents has to be, [process_emex] raises [OSError] before it
    reads the archive: the outcome is the same for every archive, nothing
    is written and nothing is registered. *)
Theorem file_in_the_way output_path files k c :
  (1 <= k <= List.length (media_path output_path))%nat ->
  files !! firstn k (media_path output_path) = Some (File c) ->
  exists name w,
    written w = [] /\ media_paths w = ∅
    /\ forall emex_file,
        process_emex output_path emex_file files = Some (Raise (OSError name), w).
Proof.
  intros Hk Hfile. unfold process_emex. unfold bind at 1. unfold logging at 1, modify.
  cbn [media_paths fs log written]. unfold bind.
  set (wa := World ∅ files ([] ++ [(INFO, "Creating target directories…")]) []).
  destruct (mkdir_from_keeps [] output_path wa) as [Hwa Hma].
  fold (mkdir output_path) in Hwa, Hma.
  destruct (mkdir output_path wa) as [x wb] eqn:Hb.
  destruct (mkdir_from_files _ _ _ _ _ Hb) as [Hkeep [-> | [name ->]]].
  - destruct (mkdir_from_blocked (media_path output_path) [] wb k c Hk) as (name & wc & Hc).
    { cbn [app]. apply Hkeep. exact Hfile. }
    destruct (mkdir_from_keeps [] (media_path output_path) wb) as [Hwb Hmb].
    fold (mkdir (media_path output_path)) in Hc. rewrite Hc.
    unfold mkdir in Hc. rewrite Hc in Hwb, Hmb. cbn in *.
    exists name, wc. split; [by rewrite Hwb|]. split; [by rewrite Hmb | done].
  - cbn in *. exists name, wb. by repeat split.
Qed.

End Directories.

Lemma directories_created_witness :
  exists x w,
    process_emex (H := Plain.collaborators) (H0 := Plain.html2text) ["out"]
                 Plain.groceries ∅ = Some (x, w)
    /\ fs w !! ["out"] = Some Dir /\ fs w !! ["out"; "media"] = Some Dir.
Proof.
  destruct (directories_created (H := Plain.collaborators) (H0 := Plain.html2text)
              ["out"] Plain.groceries ∅) as (x & w & Hrun & Hdirs).
  - intros k c _. by rewrite lookup_empty.
  - exists x, w. split; [exact Hrun|].
    split; [apply (Hdirs 1%nat) | apply (Hdirs 2%nat)]; cbn; lia.
Defined.

Lemma file_in_the_way_witness :
  exists name w,
    process_emex (H := Plain.collaborators) (H0 := Plain.html2text) ["out"]
                 Plain.groceries {[ ["out"] := File [] ]}
    = Some (Raise (OSError name), w)
    /\ written w = [].
Proof.
  destruct (file_in_the_way (H := Plain.collaborators) (H0 := Plain.html2text)
              ["out"] {[ ["out"] := File [] ]} 1%nat [])
    as (name & w & Hwr & _ & Hrun).
  - cbn. lia.
  - vm_compute. reflexivity.
  - exists name, w. split; [apply Hrun | exact Hwr].
Defined.

(** ** The further properties on the small instance *)

Lemma world_changes_at_yields_only_witness :
  snd (run (H := Plain.collaborators) (H0 := Plain.html2text) ["out"]
           [End "title" (PyStr "T"); End "data" (PyStr "abc"); End "content" PyNone]
           no_locals after_resource)
  = after_resource.
Proof.
  apply (world_changes_at_yields_only (H := Plain.collaborators) (H0 := Plain.html2text));
    reflexivity.
Defined.

Lemma locals_kept_across_yields_witness :
  exists l' w',
    run (H := Plain.collaborators) (H0 := Plain.html2text) ["out"]
        [End "resource" PyNone; End "note" PyNone; End "resource" PyNone]
        locals_after_resource after_resource = (Ok l', w')
    /\ title l' = Some (PyStr "Groceries")
    /\ data l' = Some [].
Proof.
  eexists. eexists. split; [vm_compute; reflexivity|].
  destruct (locals_kept_across_yields (H := Plain.collaborators) (H0 := Plain.html2text)
              ["out"] [End "resource" PyNone; End "note" PyNone; End "resource" PyNone]
              locals_after_resource after_resource locals_after_resource _
              ltac:(vm_compute; reflexivity)) as (Ht & _ & Hd).
  split; [exact (Ht eq_refl) | exact (Hd eq_refl)].
Defined.

Lemma unbound_locals_witness :
  for_loop (H := Plain.collaborators) (H0 := Plain.html2text) ["out"] 3 no_locals
           [End "title" (PyStr "T"); End "resource" PyNone] empty_world
  = Some (Raise (UnboundLocalError "data"), empty_world).
Proof.
  destruct (unbound_locals (H := Plain.collaborators) (H0 := Plain.html2text) ["out"]
              [End "title" (PyStr "T")] empty_world
              (Locals (Some (PyStr "T")) None None) empty_world eq_refl) as [Hdata _].
  exact (Hdata eq_refl PyNone []).
Defined.


Lemma media_files_never_overwritten_witness :
  fs (snd (run (H := Plain.collaborators) (H0 := Plain.html2text) ["out"]
               Plain.groceries no_locals stale_world))
     !! ["out"; "media"; "d41d8cd98f00b204e9800998ecf8427e.txt"]
  = Some (File (list_byte_of_string "old")).
Proof.
  apply (media_files_never_overwritten (H := Plain.collaborators)
           (H0 := Plain.html2text) ["out"] Plain.groceries no_locals stale_world
           "d41d8cd98f00b204e9800998ecf8427e.txt").
  vm_compute. reflexivity.
Defined.


Lemma note_not_saved_witness :
  for_loop (H := Plain.collaborators) (H0 := Plain.html2text) ["out"] 4 no_locals
           (dangling_note ++ [End "note" PyNone]) empty_world
  = Some (Raise (KeyError (PyStr "abc")), World ∅ ∅ ([] ++ []) []).
Proof.
  apply (note_not_saved (H := Plain.collaborators) (H0 := Plain.html2text) ["out"]
           dangling_note PyNone [] no_locals empty_world locals_of_dangling_note
           empty_world (PyStr "Dangling") (PyStr "<en-media hash=abc/>")).
  - reflexivity.
  - reflexivity.
  - reflexivity.
  - vm_compute. reflexivity.
Defined.

Lemma note_path_is_a_directory_witness :
  for_loop (H := Plain.collaborators) (H0 := Plain.html2text) ["out"] 6 no_locals
           (before_note ++ [End "note" PyNone]) directory_in_the_way
  = Some (Raise (OSError "out/Groceries.md"),
          World {[ "d41d8cd98f00b204e9800998ecf8427e"
                   := ["media"; "d41d8cd98f00b204e9800998ecf8427e.txt"] ]}
                (<[ ["out"; "media"; "d41d8cd98f00b204e9800998ecf8427e.txt"] := File [] ]>
                   {[ ["out"; "Groceries.md"] := Dir ]})
                [(INFO, "Saving out/media/d41d8cd98f00b204e9800998ecf8427e.txt");
                 (INFO, "Note: Groceries"); (INFO, "Saving out/Groceries.md")]
                [(["out"; "media"; "d41d8cd98f00b204e9800998ecf8427e.txt"], [])]).
Proof.
  refine (eq_trans
            (note_path_is_a_directory (H := Plain.collaborators) (H0 := Plain.html2text)
               ["out"] before_note PyNone [] no_locals directory_in_the_way
               locals_after_resource
               (snd (run (H := Plain.collaborators) (H0 := Plain.html2text) ["out"]
                         before_note no_locals directory_in_the_way))
               (PyStr "Groceries")
               (PyStr "<en-note><en-todo checked=true/>Milk <en-media hash=d41d8cd98f00b204e9800998ecf8427e title=pic/></en-note>")
               "[x]Milk ![pic](media/d41d8cd98f00b204e9800998ecf8427e.txt)" []
               "Groceries" _ eq_refl eq_refl _ eq_refl _) _).
  - vm_compute. reflexivity.
  - vm_compute. reflexivity.
  - vm_compute. reflexivity.
  - vm_compute. reflexivity.
Defined.

Lemma one_write_per_note_witness :
  List.length (List.filter (is_note_write ["out"]) (written after_groceries)) = 1%nat.
Proof.
  exact (one_write_per_note (H := Plain.collaborators) (H0 := Plain.html2text) ["out"]
           Plain.groceries no_locals empty_world locals_after_resource after_groceries
           ltac:(vm_compute; reflexivity)).
Defined.
